(** * A todo-list service over a document store: data-access contract

    Shallow embedding of [models.py], [crud.py], [main.py] and the list tool of
    [mcp_server.py].  The document store (MongoDB through motor/pymongo), the
    [bson] identifier type, the wall clock and the regular-expression engine
    of the store are collaborators of the program; they are modelled here as
    far as the data-access layer observes them. *)

From Stdlib Require Import List String Ascii ZArith NArith Bool Lia Arith.
From Stdlib Require Import Sorted Permutation.
Import ListNotations.


(** ** Text *)

Module Text.

(** A [string] holds the bytes of a text in UTF-8. *)
Definition chars (s : string) : list ascii := list_ascii_of_string s.

(** The bytes 10xxxxxx, which continue a character begun before. *)
Definition is_continuation (c : ascii) : bool :=
  let n := N_of_ascii c in (128 <=? n)%N && (n <? 192)%N.

(** [len(s)]: the number of characters, not of bytes. *)
Definition characters (s : string) : nat :=
  List.length (List.filter (fun c => negb (is_continuation c)) (chars s)).

(** ASCII white space, as [bytes.fromhex] skips it. *)
Definition is_space (c : ascii) : bool :=
  let n := N_of_ascii c in (n =? 32)%N || ((9 <=? n)%N && (n <=? 13)%N).

Definition is_upper (c : ascii) : bool :=
  let n := N_of_ascii c in (65 <=? n)%N && (n <=? 90)%N.

(** ASCII case folding, as a caseless comparison of ASCII text does it. *)
Definition lower (c : ascii) : ascii :=
  if is_upper c then ascii_of_N (N_of_ascii c + 32) else c.

Definition eqb_ci (a b : ascii) : bool := Ascii.eqb (lower a) (lower b).

Definition fold (s : string) : list ascii := map lower (chars s).

(** The words of the specification: [needle] occurs in [hay] as a
    case-insensitive substring. *)
Definition ci_substring (needle hay : string) : Prop :=
  exists pre post, fold hay = pre ++ fold needle ++ post.

Definition is_hex (c : ascii) : bool :=
  let n := N_of_ascii c in
  ((48 <=? n) && (n <=? 57) || (65 <=? n) && (n <=? 70)
   || (97 <=? n) && (n <=? 102))%N.

Definition hex_value (c : ascii) : N :=
  let n := N_of_ascii c in
  (if n <=? 57 then n - 48 else if n <=? 70 then n - 55 else n - 87)%N.

Definition hex_digit (d : N) : ascii :=
  (if d <? 10 then ascii_of_N (48 + d) else ascii_of_N (87 + d))%N.

End Text.

(** ** bson.ObjectId

    Twelve bytes, written as twenty-four hexadecimal digits.  The value is
    kept as the number the twelve bytes spell, big-endian. *)

Module ObjectId.

Definition t := N.

Definition modulus : N := 2 ^ 96.

(** The canonical text of an identifier, as [str(oid)] writes it: exactly
    24 characters, all of them hexadecimal digits.  The properties of the
    operations on a stored record are stated for these texts. *)
Definition is_valid (oid : string) : bool :=
  Nat.eqb (String.length oid) 24 && forallb Text.is_hex (Text.chars oid).

(** [bytes.fromhex]: two hexadecimal digits per byte, white space skipped
    before a byte; [None] where it raises [ValueError]. *)
Fixpoint fromhex (s : list ascii) : option (list N) :=
  match s with
  | [] => Some []
  | c :: rest =>
      if Text.is_space c then fromhex rest
      else if Text.is_hex c then
        match rest with
        | d :: rest' =>
            if Text.is_hex d
            then option_map (cons (16 * Text.hex_value c + Text.hex_value d)%N)
                   (fromhex rest')
            else None
        | [] => None
        end
      else None
  end.

(** [ObjectId.is_valid(oid)] as the library answers it for a [str]: the
    text has 24 characters and [bytes.fromhex] reads it.  Every canonical text
    passes; so does a text of 24 characters in which white space stands
    between the bytes, from which the library builds an identifier of fewer
    than twelve bytes. *)
Definition bson_is_valid (oid : string) : bool :=
  Nat.eqb (String.length oid) 24
  && match fromhex (Text.chars oid) with
     | Some _ => true
     | None => false
     end.

(** [ObjectId(oid)] for a canonical text.  What the store is asked for an
    accepted text that is not canonical is up to the driver's encoder; the
    model asks for this number, and no theorem below speaks of that case
    other than to say what cannot happen in it. *)
Definition of_str (oid : string) : t :=
  fold_left (fun acc c => (16 * acc + Text.hex_value c)%N) (Text.chars oid) 0%N.

Fixpoint hex (digits : nat) (n : N) (acc : string) : string :=
  match digits with
  | O => acc
  | S k => hex k (n / 16)%N (String (Text.hex_digit (n mod 16)%N) acc)
  end.

(** [str(oid)]: 24 lower-case hexadecimal digits. *)
Definition str (oid : t) : string := hex 24 oid EmptyString.

Definition eqb (a b : t) : bool := N.eqb a b.

End ObjectId.

(** ** The regular expressions of the store

    [$regex] hands the pattern text and the option letters to the store's
    regular-expression engine.  An engine takes both and either rejects the
    pattern or gives the unanchored search predicate on a subject text. *)

Definition regex_engine := string -> string -> option (string -> bool).

(** A fragment of the Perl-compatible syntax on ASCII text: ordinary
    characters, the wildcard [.] and backslash-escaped metacharacters, with
    no option or with the caseless option [i].  Case is folded for the ASCII
    letters and the wildcard takes one byte, which is what the store does on
    ASCII text only; whatever lies outside the fragment is answered with
    [None] here.  The engine stands for the store's in the scenarios, all of
    them ASCII text and patterns of the fragment; the properties of the search
    are stated for every engine. *)

Module Pcre.

Inductive atom : Type :=
| Lit (c : ascii)
| Dot.

Definition metachars : list ascii :=
  Text.chars "\^$.|?*+()[]{}".

Definition metachar (c : ascii) : bool :=
  existsb (Ascii.eqb c) metachars.

Definition backslash : ascii := "\"%char.
Definition newline : ascii := "010"%char.

Fixpoint parse (p : list ascii) : option (list atom) :=
  match p with
  | [] => Some []
  | c :: rest =>
      if Ascii.eqb c backslash then
        match rest with
        | e :: rest' =>
            if metachar e then option_map (cons (Lit e)) (parse rest')
            else None
        | [] => None
        end
      else if Ascii.eqb c "."%char then option_map (cons Dot) (parse rest)
      else if metachar c then None
      else option_map (cons (Lit c)) (parse rest)
  end.

Definition atom_match (caseless : bool) (a : atom) (c : ascii) : bool :=
  match a with
  | Lit x => if caseless then Text.eqb_ci x c else Ascii.eqb x c
  | Dot => negb (Ascii.eqb c newline)
  end.

(** The pattern matches a prefix of the subject. *)
Fixpoint match_here (caseless : bool) (p : list atom) (s : list ascii) : bool :=
  match p, s with
  | [], _ => true
  | _ :: _, [] => false
  | a :: p', c :: s' => atom_match caseless a c && match_here caseless p' s'
  end.

(** Unanchored search: the pattern matches at some position. *)
Fixpoint search (caseless : bool) (p : list atom) (s : list ascii) : bool :=
  match_here caseless p s
  || match s with
     | [] => false
     | _ :: s' => search caseless p s'
     end.

Definition options (o : string) : option bool :=
  if String.eqb o EmptyString then Some false
  else if String.eqb o "i" then Some true
  else None.

Definition engine : regex_engine := fun pattern opts =>
  match options opts, parse (Text.chars pattern) with
  | Some caseless, Some p => Some (fun subject => search caseless p (Text.chars subject))
  | _, _ => None
  end.

End Pcre.

(** ** models.py *)

(** Times are microseconds since the epoch, as [datetime] counts them. *)
Definition datetime := Z.

Definition priority_pattern (p : string) : bool :=
  String.eqb p "low" || String.eqb p "medium" || String.eqb p "high".

Definition opt_all {A} (f : A -> bool) (o : option A) : bool :=
  match o with
  | Some a => f a
  | None => true
  end.

Module TodoCreate.

Record t : Type := mk {
  title : string;
  description : option string;
  completed : bool;
  priority : string;
  due_date : option datetime;
  tags : list string
}.

(** The field constraints of [TodoBase]. *)
Definition valid (r : t) : bool :=
  (1 <=? Text.characters (title r)) && (Text.characters (title r) <=? 200)
  && opt_all (fun d => Text.characters d <=? 1000) (description r)
  && priority_pattern (priority r).

End TodoCreate.

Module TodoUpdate.

Record t : Type := mk {
  title : option string;
  description : option string;
  completed : option bool;
  priority : option string;
  due_date : option datetime;
  tags : option (list string)
}.

Definition valid (r : t) : bool :=
  opt_all (fun s => (1 <=? Text.characters s) && (Text.characters s <=? 200)) (title r)
  && opt_all (fun d => Text.characters d <=? 1000) (description r)
  && opt_all priority_pattern (priority r).

End TodoUpdate.

(** [Todo] and [TodoResponse] have the same fields; a stored document is
    one of them, its key [_id] being the model's [id]. *)
Module Todo.

Record t : Type := mk {
  _id : ObjectId.t;
  title : string;
  description : option string;
  completed : bool;
  priority : string;
  due_date : option datetime;
  tags : list string;
  created_at : datetime;
  updated_at : datetime
}.

Definition eq_dec (a b : t) : {a = b} + {a <> b}.
Proof.
  decide equality;
    repeat first
      [ apply Z.eq_dec | apply N.eq_dec | apply string_dec | apply Bool.bool_dec
      | apply list_eq_dec | decide equality ].
Defined.

End Todo.

Local Open Scope Z_scope.

Record TodoListResponse : Type := {
  todos : list Todo.t;
  total : Z;
  page : Z;
  limit : Z;
  has_next : bool;
  has_prev : bool
}.

(** ** The world of one process: the collection [db.todos], the wall clock
    and the driver's identifier generator.

    [clock n] is what the [n]-th call of [datetime.utcnow()] reads and
    [oid_source n] what the [n]-th generated [ObjectId()] is made from;
    nothing is assumed of either. *)

Record World : Type := {
  collection : list Todo.t;
  clock : nat -> datetime;
  clock_reads : nat;
  oid_source : nat -> N;
  oid_draws : nat
}.

Definition with_collection (w : World) (docs : list Todo.t) : World :=
  {| collection := docs; clock := clock w; clock_reads := clock_reads w;
     oid_source := oid_source w; oid_draws := oid_draws w |}.

(** ** Effects: state and exceptions *)

Inductive exn : Type :=
| ValueError
| TypeError
| OperationFailure
| DuplicateKeyError.

Inductive result (A : Type) : Type :=
| Ok (a : A)
| Raise (e : exn).

Arguments Ok {A} a.
Arguments Raise {A} e.

Definition M (A : Type) : Type := World -> result A * World.

Definition ret {A} (a : A) : M A := fun w => (Ok a, w).

Definition raise {A} (e : exn) : M A := fun w => (Raise e, w).

Definition bind {A B} (c : M A) (k : A -> M B) : M B := fun w =>
  match c w with
  | (Ok a, w') => k a w'
  | (Raise e, w') => (Raise e, w')
  end.

Notation "x <- c1 ;; c2" := (bind c1 (fun x => c2))
  (at level 61, c1 at next level, right associativity).

(** [try: body except Exception as e: handler]. *)
Definition try_except {A} (body : M A) (handler : exn -> M A) : M A := fun w =>
  match body w with
  | (Ok a, w') => (Ok a, w')
  | (Raise e, w') => handler e w'
  end.

Definition utcnow : M datetime := fun w =>
  (Ok (clock w (clock_reads w)),
   {| collection := collection w; clock := clock w; clock_reads := S (clock_reads w);
      oid_source := oid_source w; oid_draws := oid_draws w |}).

(** ** The document store, as pymongo and motor present it *)

(** BSON keeps a date as whole milliseconds. *)
Definition bson_datetime (d : datetime) : datetime := 1000 * (d / 1000).

Inductive text_field : Type := Title | Description.

Record regex_clause : Type := {
  on_field : text_field;
  regex : string;
  regex_options : string
}.

Inductive criterion : Type :=
| Id (oid : ObjectId.t)
| Completed (b : bool)
| Priority (p : string)
| Tags (tag : string)
| Or (clauses : list regex_clause).

Definition filter_dict := list criterion.

Inductive assignment : Type :=
| SetTitle (s : string)
| SetDescription (s : string)
| SetCompleted (b : bool)
| SetPriority (s : string)
| SetDueDate (d : datetime)
| SetTags (l : list string)
| SetUpdatedAt (d : datetime).

Inductive sort_key : Type := CreatedAt | UpdatedAt.

Record Cursor : Type := {
  cursor_filter : filter_dict;
  cursor_skip : Z;
  cursor_limit : Z;
  cursor_sort : option (sort_key * Z)
}.

Record UpdateResult : Type := { matched_count : Z; modified_count : Z }.
Record DeleteResult : Type := { deleted_count : Z }.

(** What [insert_one] is given: the model's [dict()] and the two stamps. *)
Record new_document : Type := {
  fields : TodoCreate.t;
  new_created_at : datetime;
  new_updated_at : datetime
}.

Definition field_text (f : text_field) (d : Todo.t) : option string :=
  match f with
  | Title => Some (Todo.title d)
  | Description => Todo.description d
  end.

Definition key_of (k : sort_key) (d : Todo.t) : datetime :=
  match k with
  | CreatedAt => Todo.created_at d
  | UpdatedAt => Todo.updated_at d
  end.

(** [x] may stand before [y]: direction [-1] is descending. *)
Definition in_order (k : sort_key) (direction : Z) (x y : Todo.t) : bool :=
  if direction <? 0 then key_of k y <=? key_of k x else key_of k x <=? key_of k y.

Fixpoint insert_sorted (le : Todo.t -> Todo.t -> bool) (x : Todo.t) (l : list Todo.t)
  : list Todo.t :=
  match l with
  | [] => [x]
  | y :: l' => if le x y then x :: l else y :: insert_sorted le x l'
  end.

(** One order by the key.  Documents with equal keys keep their natural
    order here; the store promises no order among them, and the properties
    of a paged listing do not rely on one. *)
Definition sort_docs (le : Todo.t -> Todo.t -> bool) (l : list Todo.t) : list Todo.t :=
  fold_right (insert_sorted le) [] l.

Definition apply_assignment (d : Todo.t) (a : assignment) : Todo.t :=
  match a with
  | SetTitle s =>
      Todo.mk (Todo._id d) s (Todo.description d) (Todo.completed d) (Todo.priority d)
        (Todo.due_date d) (Todo.tags d) (Todo.created_at d) (Todo.updated_at d)
  | SetDescription s =>
      Todo.mk (Todo._id d) (Todo.title d) (Some s) (Todo.completed d) (Todo.priority d)
        (Todo.due_date d) (Todo.tags d) (Todo.created_at d) (Todo.updated_at d)
  | SetCompleted b =>
      Todo.mk (Todo._id d) (Todo.title d) (Todo.description d) b (Todo.priority d)
        (Todo.due_date d) (Todo.tags d) (Todo.created_at d) (Todo.updated_at d)
  | SetPriority s =>
      Todo.mk (Todo._id d) (Todo.title d) (Todo.description d) (Todo.completed d) s
        (Todo.due_date d) (Todo.tags d) (Todo.created_at d) (Todo.updated_at d)
  | SetDueDate t =>
      Todo.mk (Todo._id d) (Todo.title d) (Todo.description d) (Todo.completed d)
        (Todo.priority d) (Some (bson_datetime t)) (Todo.tags d) (Todo.created_at d)
        (Todo.updated_at d)
  | SetTags l =>
      Todo.mk (Todo._id d) (Todo.title d) (Todo.description d) (Todo.completed d)
        (Todo.priority d) (Todo.due_date d) l (Todo.created_at d) (Todo.updated_at d)
  | SetUpdatedAt t =>
      Todo.mk (Todo._id d) (Todo.title d) (Todo.description d) (Todo.completed d)
        (Todo.priority d) (Todo.due_date d) (Todo.tags d) (Todo.created_at d)
        (bson_datetime t)
  end.

(** [{"$set": update_dict}] *)
Definition apply_set (update_dict : list assignment) (d : Todo.t) : Todo.t :=
  fold_left apply_assignment update_dict d.

(** The first document that satisfies [p] is replaced by [f] of it. *)
Fixpoint replace_first (p : Todo.t -> bool) (f : Todo.t -> Todo.t) (l : list Todo.t)
  : list Todo.t :=
  match l with
  | [] => []
  | d :: l' => if p d then f d :: l' else d :: replace_first p f l'
  end.

Fixpoint remove_first (p : Todo.t -> bool) (l : list Todo.t) : list Todo.t :=
  match l with
  | [] => []
  | d :: l' => if p d then l' else d :: remove_first p l'
  end.

Definition stored (oid : ObjectId.t) (doc : new_document) : Todo.t :=
  let r := fields doc in
  Todo.mk oid (TodoCreate.title r) (TodoCreate.description r) (TodoCreate.completed r)
    (TodoCreate.priority r) (option_map bson_datetime (TodoCreate.due_date r))
    (TodoCreate.tags r) (bson_datetime (new_created_at doc))
    (bson_datetime (new_updated_at doc)).

(** [ObjectId()], twelve bytes from the generator. *)
Definition new_object_id : M ObjectId.t := fun w =>
  (Ok (oid_source w (oid_draws w) mod ObjectId.modulus)%N,
   {| collection := collection w; clock := clock w; clock_reads := clock_reads w;
      oid_source := oid_source w; oid_draws := S (oid_draws w) |}).

(** [db.todos] *)
Module Collection.

(** [insert_one] gives the document a fresh [_id]; the unique index on
    [_id] refuses one that is already taken. *)
Definition insert_one (doc : new_document) : M ObjectId.t :=
  oid <- new_object_id ;;
  fun w =>
    if existsb (fun d => ObjectId.eqb (Todo._id d) oid) (collection w)
    then (Raise DuplicateKeyError, w)
    else (Ok oid, with_collection w (collection w ++ [stored oid doc])).

Section Engine.

Variable engine : regex_engine.

Definition clause_pred (c : regex_clause) : option (Todo.t -> bool) :=
  match engine (regex c) (regex_options c) with
  | Some found =>
      Some (fun d => match field_text (on_field c) d with
                     | Some s => found s
                     | None => false
                     end)
  | None => None
  end.

Fixpoint or_pred (cs : list regex_clause) : option (Todo.t -> bool) :=
  match cs with
  | [] => Some (fun _ => false)
  | c :: cs' =>
      match clause_pred c, or_pred cs' with
      | Some p, Some q => Some (fun d => p d || q d)
      | _, _ => None
      end
  end.

Definition criterion_pred (c : criterion) : option (Todo.t -> bool) :=
  match c with
  | Id oid => Some (fun d => ObjectId.eqb (Todo._id d) oid)
  | Completed b => Some (fun d => Bool.eqb (Todo.completed d) b)
  | Priority p => Some (fun d => String.eqb (Todo.priority d) p)
  | Tags tag => Some (fun d => existsb (String.eqb tag) (Todo.tags d))
  | Or cs => or_pred cs
  end.

(** The keys of a filter are and-combined; [None] when the store rejects
    a regular expression in it. *)
Fixpoint filter_pred (f : filter_dict) : option (Todo.t -> bool) :=
  match f with
  | [] => Some (fun _ => true)
  | c :: f' =>
      match criterion_pred c, filter_pred f' with
      | Some p, Some q => Some (fun d => p d && q d)
      | _, _ => None
      end
  end.

(** The store's answer to a query. *)
Definition query (f : filter_dict) : M (list Todo.t) := fun w =>
  match filter_pred f with
  | Some p => (Ok (List.filter p (collection w)), w)
  | None => (Raise OperationFailure, w)
  end.

Definition find_one (f : filter_dict) : M (option Todo.t) := fun w =>
  match filter_pred f with
  | Some p => (Ok (List.find p (collection w)), w)
  | None => (Raise OperationFailure, w)
  end.

Definition count_documents (f : filter_dict) : M Z :=
  docs <- query f ;; ret (Z.of_nat (List.length docs)).

Definition find (f : filter_dict) : Cursor :=
  {| cursor_filter := f; cursor_skip := 0; cursor_limit := 0; cursor_sort := None |}.

(** [cursor.skip] refuses a negative number.  The driver writes skip and
    limit into the command as integers of at most eight bytes; numbers from
    2^63 on are outside this model, and the properties of a listing at an
    arbitrary offset are stated below that bound. *)
Definition skip (n : Z) (c : Cursor) : M Cursor :=
  if n <? 0 then raise ValueError
  else ret {| cursor_filter := cursor_filter c; cursor_skip := n;
              cursor_limit := cursor_limit c; cursor_sort := cursor_sort c |}.

Definition limit (n : Z) (c : Cursor) : M Cursor :=
  ret {| cursor_filter := cursor_filter c; cursor_skip := cursor_skip c;
         cursor_limit := n; cursor_sort := cursor_sort c |}.

Definition sort (k : sort_key) (direction : Z) (c : Cursor) : M Cursor :=
  ret {| cursor_filter := cursor_filter c; cursor_skip := cursor_skip c;
         cursor_limit := cursor_limit c; cursor_sort := Some (k, direction) |}.

(** The store sorts, then skips, then limits, whatever the order of the
    calls on the cursor; a limit of 0 is no limit. *)
Definition fetch (c : Cursor) : M (list Todo.t) :=
  docs <- query (cursor_filter c) ;;
  let sorted := match cursor_sort c with
                | Some (k, direction) => sort_docs (in_order k direction) docs
                | None => docs
                end in
  let skipped := skipn (Z.to_nat (cursor_skip c)) sorted in
  ret (if cursor_limit c =? 0 then skipped
       else firstn (Z.to_nat (Z.abs (cursor_limit c))) skipped).

(** motor's [to_list(length)] *)
Definition to_list (length : option Z) (c : Cursor) : M (list Todo.t) :=
  match length with
  | Some n =>
      if n <? 0 then raise ValueError
      else docs <- fetch c ;; ret (firstn (Z.to_nat n) docs)
  | None => fetch c
  end.

(** [modified_count] tells whether the matched document was changed. *)
Definition update_one (f : filter_dict) (update_dict : list assignment) : M UpdateResult :=
  fun w =>
    match filter_pred f with
    | Some p =>
        match List.find p (collection w) with
        | Some d =>
            if Todo.eq_dec (apply_set update_dict d) d
            then (Ok {| matched_count := 1; modified_count := 0 |}, w)
            else (Ok {| matched_count := 1; modified_count := 1 |},
                  with_collection w
                    (replace_first p (apply_set update_dict) (collection w)))
        | None => (Ok {| matched_count := 0; modified_count := 0 |}, w)
        end
    | None => (Raise OperationFailure, w)
    end.

Definition delete_one (f : filter_dict) : M DeleteResult := fun w =>
  match filter_pred f with
  | Some p =>
      if existsb p (collection w)
      then (Ok {| deleted_count := 1 |}, with_collection w (remove_first p (collection w)))
      else (Ok {| deleted_count := 0 |}, w)
  | None => (Raise OperationFailure, w)
  end.

End Engine.

End Collection.

(** ** crud.py *)

Module TodoCRUD.

Section Engine.

Variable engine : regex_engine.

(** Python's truth of a string: the empty one is false. *)
Definition truthy (s : string) : bool := negb (String.eqb s EmptyString).

Definition create_todo (todo : TodoCreate.t) : M Todo.t :=
  created_at <- utcnow ;;
  updated_at <- utcnow ;;
  inserted_id <- Collection.insert_one {| fields := todo; new_created_at := created_at;
                               new_updated_at := updated_at |} ;;
  created_todo <- Collection.find_one engine [Id inserted_id] ;;
  match created_todo with
  | Some doc => ret doc
  | None => raise TypeError
  end.

Definition get_todo (todo_id : string) : M (option Todo.t) :=
  if negb (ObjectId.bson_is_valid todo_id) then ret None
  else
    todo <- Collection.find_one engine [Id (ObjectId.of_str todo_id)] ;;
    match todo with
    | Some doc => ret (Some doc)
    | None => ret None
    end.

(** The filter that [get_todos] and [get_todos_count] both build. *)
Definition build_filter (completed : option bool) (priority search : option string)
  : filter_dict :=
  (match completed with
   | Some b => [Completed b]
   | None => []
   end)
  ++ (match priority with
      | Some p => if truthy p then [Priority p] else []
      | None => []
      end)
  ++ (match search with
      | Some s =>
          if truthy s
          then [Or [ {| on_field := Title; regex := s; regex_options := "i" |};
                     {| on_field := Description; regex := s; regex_options := "i" |} ]]
          else []
      | None => []
      end).

Definition get_todos (skip_ limit : Z) (completed : option bool)
  (priority search : option string) : M (list Todo.t) :=
  let filter_dict := build_filter completed priority search in
  cursor <- (c1 <- Collection.skip skip_ (Collection.find filter_dict) ;;
             c2 <- Collection.limit limit c1 ;;
             Collection.sort CreatedAt (-1) c2) ;;
  Collection.to_list engine (Some limit) cursor.

Definition get_todos_count (completed : option bool) (priority search : option string)
  : M Z :=
  let filter_dict := build_filter completed priority search in
  Collection.count_documents engine filter_dict.

(** [{k: v for k, v in todo_update.dict().items() if v is not None}] *)
Definition present_fields (u : TodoUpdate.t) : list assignment :=
  (match TodoUpdate.title u with Some s => [SetTitle s] | None => [] end)
  ++ (match TodoUpdate.description u with Some s => [SetDescription s] | None => [] end)
  ++ (match TodoUpdate.completed u with Some b => [SetCompleted b] | None => [] end)
  ++ (match TodoUpdate.priority u with Some s => [SetPriority s] | None => [] end)
  ++ (match TodoUpdate.due_date u with Some d => [SetDueDate d] | None => [] end)
  ++ (match TodoUpdate.tags u with Some l => [SetTags l] | None => [] end).

Definition update_todo (todo_id : string) (todo_update : TodoUpdate.t)
  : M (option Todo.t) :=
  if negb (ObjectId.bson_is_valid todo_id) then ret None
  else
    let update_dict := present_fields todo_update in
    match update_dict with
    | [] => get_todo todo_id
    | _ :: _ =>
        now <- utcnow ;;
        let update_dict := update_dict ++ [SetUpdatedAt now] in
        result <- Collection.update_one engine [Id (ObjectId.of_str todo_id)] update_dict ;;
        if negb (modified_count result =? 0) then get_todo todo_id
        else ret None
    end.

Definition delete_todo (todo_id : string) : M bool :=
  if negb (ObjectId.bson_is_valid todo_id) then ret false
  else
    result <- Collection.delete_one engine [Id (ObjectId.of_str todo_id)] ;;
    ret (0 <? deleted_count result).

Definition toggle_todo (todo_id : string) : M (option Todo.t) :=
  if negb (ObjectId.bson_is_valid todo_id) then ret None
  else
    todo <- get_todo todo_id ;;
    match todo with
    | None => ret None
    | Some doc =>
        let new_status := negb (Todo.completed doc) in
        now <- utcnow ;;
        result <- Collection.update_one engine [Id (ObjectId.of_str todo_id)]
                    [SetCompleted new_status; SetUpdatedAt now] ;;
        if negb (modified_count result =? 0) then get_todo todo_id
        else ret None
    end.

Definition get_todos_by_tag (tag : string) : M (list Todo.t) :=
  cursor <- Collection.sort CreatedAt (-1) (Collection.find [Tags tag]) ;;
  Collection.to_list engine None cursor.

Definition get_completed_todos : M (list Todo.t) :=
  cursor <- Collection.sort UpdatedAt (-1) (Collection.find [Completed true]) ;;
  Collection.to_list engine None cursor.

Definition get_pending_todos : M (list Todo.t) :=
  cursor <- Collection.sort CreatedAt (-1) (Collection.find [Completed false]) ;;
  Collection.to_list engine None cursor.

End Engine.

End TodoCRUD.

(** ** main.py *)

Module Main.

Inductive method : Type := GET | POST | PUT | DELETE | PATCH.

Definition method_eqb (a b : method) : bool :=
  match a, b with
  | GET, GET | POST, POST | PUT, PUT | DELETE, DELETE | PATCH, PATCH => true
  | _, _ => false
  end.

(** The [detail] of an error response: a fixed text, [str(e)] of the
    exception that was caught, or the list of errors that the framework
    writes when a parameter or a body fails its declared constraints. *)
Inductive detail : Type :=
| Message (s : string)
| StrOf (e : exn)
| RequestValidation.

(** The counts of [/stats]; its completion rate is a float and is left out. *)
Record stats : Type := {
  total_todos : Z;
  completed_todos : Z;
  pending_todos : Z;
  high : Z;
  medium : Z;
  low : Z
}.

Inductive body : Type :=
| Health
| OneTodo (t : Todo.t)
| TodoList (l : list Todo.t)
| Page (p : TodoListResponse)
| Stats (s : stats)
| Detail (d : detail)
| Redirect (url : string)
| Empty.

Record Response : Type := { status_code : Z; content : body }.

(** A request after the framework has read it: the query parameters and
    the JSON body, where present. *)
Record Request : Type := {
  http_method : method;
  path : string;
  query_page : option Z;
  query_limit : option Z;
  query_completed : option bool;
  query_priority : option string;
  query_search : option string;
  json_create : option TodoCreate.t;
  json_update : option TodoUpdate.t
}.

Definition HTTPException (status : Z) (d : detail) : Response :=
  {| status_code := status; content := Detail d |}.

Definition unprocessable : Response :=
  HTTPException 422 RequestValidation.

Section Engine.

Variable engine : regex_engine.

Definition root : M Response :=
  ret {| status_code := 200; content := Health |}.

Definition create_todo (todo : TodoCreate.t) : M Response :=
  try_except
    (created <- TodoCRUD.create_todo engine todo ;;
     ret {| status_code := 201; content := OneTodo created |})
    (fun e => ret (HTTPException 400 (StrOf e))).

Definition get_todos (page limit : Z) (completed : option bool)
  (priority search : option string) : M Response :=
  try_except
    (let skip := (page - 1) * limit in
     todos <- TodoCRUD.get_todos engine skip limit completed priority search ;;
     total <- TodoCRUD.get_todos_count engine completed priority search ;;
     ret {| status_code := 200;
            content := Page {| todos := todos;
                               total := total;
                               page := page;
                               limit := limit;
                               has_next := (skip + limit) <? total;
                               has_prev := 1 <? page |} |})
    (fun e => ret (HTTPException 500 (StrOf e))).

Definition get_todo (todo_id : string) : M Response :=
  todo <- TodoCRUD.get_todo engine todo_id ;;
  match todo with
  | None => ret (HTTPException 404 (Message "Todo not found"))
  | Some t => ret {| status_code := 200; content := OneTodo t |}
  end.

Definition update_todo (todo_id : string) (todo_update : option TodoUpdate.t)
  : M Response :=
  match todo_update with
  | None => ret (HTTPException 400 (Message "Update data is required"))
  | Some u =>
      todo <- TodoCRUD.update_todo engine todo_id u ;;
      match todo with
      | None => ret (HTTPException 404 (Message "Todo not found"))
      | Some t => ret {| status_code := 200; content := OneTodo t |}
      end
  end.

Definition delete_todo (todo_id : string) : M Response :=
  success <- TodoCRUD.delete_todo engine todo_id ;;
  if negb success then ret (HTTPException 404 (Message "Todo not found"))
  else ret {| status_code := 204; content := Empty |}.

Definition toggle_todo (todo_id : string) : M Response :=
  todo <- TodoCRUD.toggle_todo engine todo_id ;;
  match todo with
  | None => ret (HTTPException 404 (Message "Todo not found"))
  | Some t => ret {| status_code := 200; content := OneTodo t |}
  end.

Definition get_completed_todos : M Response :=
  l <- TodoCRUD.get_completed_todos engine ;;
  ret {| status_code := 200; content := TodoList l |}.

Definition get_pending_todos : M Response :=
  l <- TodoCRUD.get_pending_todos engine ;;
  ret {| status_code := 200; content := TodoList l |}.

Definition get_todos_by_tag (tag : string) : M Response :=
  l <- TodoCRUD.get_todos_by_tag engine tag ;;
  ret {| status_code := 200; content := TodoList l |}.

Definition get_stats : M Response :=
  try_except
    (total <- TodoCRUD.get_todos_count engine None None None ;;
     completed <- TodoCRUD.get_todos_count engine (Some true) None None ;;
     pending <- TodoCRUD.get_todos_count engine (Some false) None None ;;
     high_priority <- TodoCRUD.get_todos_count engine None (Some "high"%string) None ;;
     medium_priority <- TodoCRUD.get_todos_count engine None (Some "medium"%string) None ;;
     low_priority <- TodoCRUD.get_todos_count engine None (Some "low"%string) None ;;
     ret {| status_code := 200;
            content := Stats {| total_todos := total;
                                completed_todos := completed;
                                pending_todos := pending;
                                high := high_priority;
                                medium := medium_priority;
                                low := low_priority |} |})
    (fun e => ret (HTTPException 500 (StrOf e))).

(** *** The routes, in the order in which the decorators register them *)

Inductive endpoint : Type :=
| Root | CreateTodo | GetTodos | GetTodo | UpdateTodo | DeleteTodo | ToggleTodo
| GetCompletedTodos | GetPendingTodos | GetTodosByTag | GetStats.

Record Route : Type := {
  route_method : method;
  route_path : string;
  route_endpoint : endpoint
}.

Definition app : list Route :=
  [ {| route_method := GET; route_path := "/"; route_endpoint := Root |};
    {| route_method := POST; route_path := "/todos"; route_endpoint := CreateTodo |};
    {| route_method := GET; route_path := "/todos"; route_endpoint := GetTodos |};
    {| route_method := GET; route_path := "/todos/{todo_id}"; route_endpoint := GetTodo |};
    {| route_method := PUT; route_path := "/todos/{todo_id}"; route_endpoint := UpdateTodo |};
    {| route_method := DELETE; route_path := "/todos/{todo_id}";
       route_endpoint := DeleteTodo |};
    {| route_method := PATCH; route_path := "/todos/{todo_id}/toggle";
       route_endpoint := ToggleTodo |};
    {| route_method := GET; route_path := "/todos/completed";
       route_endpoint := GetCompletedTodos |};
    {| route_method := GET; route_path := "/todos/pending";
       route_endpoint := GetPendingTodos |};
    {| route_method := GET; route_path := "/todos/tag/{tag}";
       route_endpoint := GetTodosByTag |};
    {| route_method := GET; route_path := "/stats"; route_endpoint := GetStats |} ].

Fixpoint segments_from (s cur : string) : list string :=
  match s with
  | EmptyString => [cur]
  | String c s' =>
      if Ascii.eqb c "/"%char then cur :: segments_from s' EmptyString
      else segments_from s' (cur ++ String c EmptyString)
  end.

(** The path cut at its slashes. *)
Definition segments (s : string) : list string := segments_from s EmptyString.

Fixpoint ends_with_brace (s : string) : bool :=
  match s with
  | EmptyString => false
  | String c EmptyString => Ascii.eqb c "}"%char
  | String _ s' => ends_with_brace s'
  end.

(** [{name}] in a route's path. *)
Definition is_param (segment : string) : bool :=
  match segment with
  | String c rest => Ascii.eqb c "{"%char && ends_with_brace rest
  | EmptyString => false
  end.

(** A parameter takes one whole non-empty segment; the other segments are
    compared letter by letter.  The result lists the parameters' values. *)
Fixpoint match_segments (template actual : list string) : option (list string) :=
  match template, actual with
  | [], [] => Some []
  | t :: ts, a :: acts =>
      if is_param t then
        if String.eqb a EmptyString then None
        else option_map (cons a) (match_segments ts acts)
      else if String.eqb t a then match_segments ts acts
      else None
  | _, _ => None
  end.

Inductive Match : Type :=
| FULL (params : list string)
| PARTIAL
| NONE.

Definition matches (r : Route) (req : Request) : Match :=
  match match_segments (segments (route_path r)) (segments (path req)) with
  | Some params =>
      if method_eqb (route_method r) (http_method req) then FULL params else PARTIAL
  | None => NONE
  end.

Inductive resolution : Type :=
| Found (e : endpoint) (params : list string)
| MethodNotAllowed
| NotFound.

(** The router walks the routes in order; the first full match handles the
    request, and a path that only matched under another method is refused. *)
Fixpoint resolve (routes : list Route) (req : Request) (partial : bool) : resolution :=
  match routes with
  | [] => if partial then MethodNotAllowed else NotFound
  | r :: routes' =>
      match matches r req with
      | FULL params => Found (route_endpoint r) params
      | PARTIAL => resolve routes' req true
      | NONE => resolve routes' req partial
      end
  end.

Definition default {A} (d : A) (o : option A) : A :=
  match o with
  | Some a => a
  | None => d
  end.

(** The endpoint is called with the parameters that its signature
    declares; a parameter that fails its declared constraint is answered 422
    before the endpoint runs. *)
Definition call (e : endpoint) (params : list string) (req : Request) : M Response :=
  match e, params with
  | Root, [] => root
  | CreateTodo, [] =>
      match json_create req with
      | Some todo => if TodoCreate.valid todo then create_todo todo else ret unprocessable
      | None => ret unprocessable
      end
  | GetTodos, [] =>
      let page := default 1 (query_page req) in
      let limit := default 10 (query_limit req) in
      if (1 <=? page) && (1 <=? limit) && (limit <=? 100)
         && opt_all priority_pattern (query_priority req)
      then get_todos page limit (query_completed req) (query_priority req)
             (query_search req)
      else ret unprocessable
  | GetTodo, [todo_id] => get_todo todo_id
  | UpdateTodo, [todo_id] =>
      if opt_all TodoUpdate.valid (json_update req)
      then update_todo todo_id (json_update req)
      else ret unprocessable
  | DeleteTodo, [todo_id] => delete_todo todo_id
  | ToggleTodo, [todo_id] => toggle_todo todo_id
  | GetCompletedTodos, [] => get_completed_todos
  | GetPendingTodos, [] => get_pending_todos
  | GetTodosByTag, [tag] => get_todos_by_tag tag
  | GetStats, [] => get_stats
  | _, _ => raise TypeError
  end.

(** [path.rstrip("/")] *)
Fixpoint rstrip_slash (s : string) : string :=
  match s with
  | EmptyString => EmptyString
  | String c s' =>
      match rstrip_slash s' with
      | EmptyString => if Ascii.eqb c "/"%char then EmptyString else String c EmptyString
      | rest => String c rest
      end
  end.

Fixpoint ends_with_slash (s : string) : bool :=
  match s with
  | EmptyString => false
  | String c EmptyString => Ascii.eqb c "/"%char
  | String _ s' => ends_with_slash s'
  end.

(** The path with its trailing slashes taken off, or with one put on. *)
Definition redirect_path (p : string) : string :=
  if ends_with_slash p then rstrip_slash p else (p ++ "/")%string.

Definition path_matches (p : string) (r : Route) : bool :=
  match match_segments (segments (route_path r)) (segments p) with
  | Some _ => true
  | None => false
  end.

(** One request through the application.  An exception that leaves an
    endpoint is answered 500.  A path that no route matches is redirected
    (307) to its twin across the trailing slash when a route matches that
    one, and answered 404 otherwise.  The routes that the framework adds for
    its own documentation are not among the routes here. *)
Definition dispatch (req : Request) : M Response :=
  match resolve app req false with
  | Found e params =>
      try_except (call e params req)
        (fun _ => ret (HTTPException 500 (Message "Internal Server Error")))
  | MethodNotAllowed => ret (HTTPException 405 (Message "Method Not Allowed"))
  | NotFound =>
      if negb (String.eqb (path req) "/")
         && existsb (path_matches (redirect_path (path req))) app
      then ret {| status_code := 307; content := Redirect (redirect_path (path req)) |}
      else ret (HTTPException 404 (Message "Not Found"))
  end.

End Engine.

(** [GET path] with neither query parameters nor body. *)
Definition get (p : string) : Request :=
  {| http_method := GET; path := p; query_page := None; query_limit := None;
     query_completed := None; query_priority := None; query_search := None;
     json_create := None; json_update := None |}.

End Main.

(** ** mcp_server.py: the list tool *)

Module McpServer.

Record pagination : Type := {
  page : Z;
  limit : Z;
  total : Z;
  has_next : bool;
  has_prev : bool
}.

(** The tool's dictionary: [success] with the todos and the pagination, or
    [error] with the message, a fixed prefix before [str(e)]. *)
Inductive reply : Type :=
| Success (todos : list Todo.t) (p : pagination)
| Error (prefix : string) (e : exn).

Section Engine.

Variable engine : regex_engine.

Definition get_todos (page limit : Z) (completed : option bool)
  (priority search : option string) : M reply :=
  try_except
    (let skip := (page - 1) * limit in
     todos <- TodoCRUD.get_todos engine skip limit completed priority search ;;
     total <- TodoCRUD.get_todos_count engine completed priority search ;;
     ret (Success todos
            {| page := page;
               limit := limit;
               total := total;
               has_next := (skip + limit) <? total;
               has_prev := 1 <? page |}))
    (fun e => ret (Error "Failed to get todos: " e)).

(** *** The other tools *)

(** [datetime.fromisoformat], of the standard library: the date that a
    text spells, or nothing where it raises [ValueError]. *)
Variable fromisoformat : string -> option datetime.

(** What a tool echoes of a record: the identifier as text and the dates
    as [isoformat] is given them.  The tool that creates leaves [updated_at]
    out. *)
Record todo_dict : Type := {
  id : string;
  title : string;
  description : option string;
  completed : bool;
  priority : string;
  due_date : option datetime;
  tags : list string;
  created_at : datetime;
  updated_at : option datetime
}.

Definition echo (t : Todo.t) : todo_dict :=
  {| id := ObjectId.str (Todo._id t);
     title := Todo.title t;
     description := Todo.description t;
     completed := Todo.completed t;
     priority := Todo.priority t;
     due_date := Todo.due_date t;
     tags := Todo.tags t;
     created_at := Todo.created_at t;
     updated_at := Some (Todo.updated_at t) |}.

Definition echo_created (t : Todo.t) : todo_dict :=
  {| id := ObjectId.str (Todo._id t);
     title := Todo.title t;
     description := Todo.description t;
     completed := Todo.completed t;
     priority := Todo.priority t;
     due_date := Todo.due_date t;
     tags := Todo.tags t;
     created_at := Todo.created_at t;
     updated_at := None |}.

(** What the [except Exception] of a tool can catch: an exception of the
    data-access layer, or the validation error of a model's constructor. *)
Inductive failure : Type :=
| Exception (e : exn)
| ValidationError.

(** The dictionaries of the tools: [success] with a message and a record,
    with a record, with a message, with a list (its count and, for the tag
    tool, the tag), with the statistics; or [error] with a text of the tool's
    own, or with a fixed prefix before [str(e)]. *)
Inductive answer : Type :=
| Done (message : string) (todo : todo_dict)
| Shown (todo : todo_dict)
| Told (message : string)
| Listed (todos : list todo_dict) (count : Z) (tag : option string)
| Counted (s : Main.stats)
| Refused (message : string)
| Failed (prefix : string) (f : failure).

(** [due_date.replace('Z', '+00:00')] *)
Fixpoint replace_Z (s : string) : string :=
  match s with
  | EmptyString => EmptyString
  | String c s' =>
      if Ascii.eqb c "Z"%char then ("+00:00" ++ replace_Z s')%string
      else String c (replace_Z s')
  end.

(** The date argument of a tool: no date when it is absent or empty, the
    parsed date, or [None] when the text is not a date. *)
Definition parse_due_date (due_date : option string) : option (option datetime) :=
  match due_date with
  | Some text =>
      if TodoCRUD.truthy text then
        match fromisoformat (replace_Z text) with
        | Some d => Some (Some d)
        | None => None
        end
      else Some None
  | None => Some None
  end.

Definition invalid_date (due_date : option string) : string :=
  ("Invalid date format: " ++ Main.default EmptyString due_date
   ++ ". Use YYYY-MM-DD format.")%string.

Definition not_found (todo_id : string) : string :=
  ("Todo with ID '" ++ todo_id ++ "' not found")%string.

Definition create_todo (title : string) (description : option string)
  (priority : string) (due_date : option string) (tags : option (list string))
  : M answer :=
  try_except
    (match parse_due_date due_date with
     | None => ret (Refused (invalid_date due_date))
     | Some parsed_due_date =>
         let todo_data :=
           TodoCreate.mk title description false priority parsed_due_date
             (Main.default [] tags) in
         if TodoCreate.valid todo_data then
           created_todo <- TodoCRUD.create_todo engine todo_data ;;
           ret (Done ("Todo '" ++ title ++ "' created successfully")%string
                  (echo_created created_todo))
         else ret (Failed "Failed to create todo: " ValidationError)
     end)
    (fun e => ret (Failed "Failed to create todo: " (Exception e))).

Definition get_todo (todo_id : string) : M answer :=
  try_except
    (todo <- TodoCRUD.get_todo engine todo_id ;;
     match todo with
     | None => ret (Refused (not_found todo_id))
     | Some t => ret (Shown (echo t))
     end)
    (fun e => ret (Failed "Failed to get todo: " (Exception e))).

Definition update_todo (todo_id : string) (title description : option string)
  (completed : option bool) (priority due_date : option string)
  (tags : option (list string)) : M answer :=
  try_except
    (match parse_due_date due_date with
     | None => ret (Refused (invalid_date due_date))
     | Some parsed_due_date =>
         let update_data :=
           TodoUpdate.mk title description completed priority parsed_due_date tags in
         if TodoUpdate.valid update_data then
           updated_todo <- TodoCRUD.update_todo engine todo_id update_data ;;
           match updated_todo with
           | None => ret (Refused (not_found todo_id))
           | Some t =>
               ret (Done ("Todo '" ++ Todo.title t ++ "' updated successfully")%string
                      (echo t))
           end
         else ret (Failed "Failed to update todo: " ValidationError)
     end)
    (fun e => ret (Failed "Failed to update todo: " (Exception e))).

Definition delete_todo (todo_id : string) : M answer :=
  try_except
    (success <- TodoCRUD.delete_todo engine todo_id ;;
     if negb success then ret (Refused (not_found todo_id))
     else ret (Told ("Todo with ID '" ++ todo_id ++ "' deleted successfully")%string))
    (fun e => ret (Failed "Failed to delete todo: " (Exception e))).

Definition toggle_todo (todo_id : string) : M answer :=
  try_except
    (todo <- TodoCRUD.toggle_todo engine todo_id ;;
     match todo with
     | None => ret (Refused (not_found todo_id))
     | Some t =>
         ret (Done ("Todo '" ++ Todo.title t ++ "' marked as "
                    ++ (if Todo.completed t then "completed" else "pending"))%string
                (echo t))
     end)
    (fun e => ret (Failed "Failed to toggle todo: " (Exception e))).

Definition get_completed_todos : M answer :=
  try_except
    (todos <- TodoCRUD.get_completed_todos engine ;;
     ret (Listed (map echo todos) (Z.of_nat (List.length todos)) None))
    (fun e => ret (Failed "Failed to get completed todos: " (Exception e))).

Definition get_pending_todos : M answer :=
  try_except
    (todos <- TodoCRUD.get_pending_todos engine ;;
     ret (Listed (map echo todos) (Z.of_nat (List.length todos)) None))
    (fun e => ret (Failed "Failed to get pending todos: " (Exception e))).

Definition get_todos_by_tag (tag : string) : M answer :=
  try_except
    (todos <- TodoCRUD.get_todos_by_tag engine tag ;;
     ret (Listed (map echo todos) (Z.of_nat (List.length todos)) (Some tag)))
    (fun e => ret (Failed "Failed to get todos by tag: " (Exception e))).

(** The counts of the statistics tool; its completion rate is a float and
    is left out, as for the route. *)
Definition get_todo_stats : M answer :=
  try_except
    (total <- TodoCRUD.get_todos_count engine None None None ;;
     completed <- TodoCRUD.get_todos_count engine (Some true) None None ;;
     pending <- TodoCRUD.get_todos_count engine (Some false) None None ;;
     high_priority <- TodoCRUD.get_todos_count engine None (Some "high"%string) None ;;
     medium_priority <- TodoCRUD.get_todos_count engine None (Some "medium"%string) None ;;
     low_priority <- TodoCRUD.get_todos_count engine None (Some "low"%string) None ;;
     ret (Counted {| Main.total_todos := total;
                     Main.completed_todos := completed;
                     Main.pending_todos := pending;
                     Main.high := high_priority;
                     Main.medium := medium_priority;
                     Main.low := low_priority |}))
    (fun e => ret (Failed "Failed to get todo stats: " (Exception e))).

End Engine.

End McpServer.

(** * Properties of the data-access contract *)

Local Open Scope string_scope.
Local Open Scope list_scope.
Local Open Scope Z_scope.

(** The stored record with a given identifier: the first one, as [find_one],
    [update_one] and [delete_one] pick it. *)
Definition has_id (oid : ObjectId.t) (d : Todo.t) : bool :=
  ObjectId.eqb (Todo._id d) oid.

Definition lookup (oid : ObjectId.t) (w : World) : option Todo.t :=
  List.find (has_id oid) (collection w).

(** What the completion and priority arguments of List and Count ask of a
    record: nothing when absent, and nothing for an empty priority. *)
Definition constrains (completed : option bool) (priority : option string) (d : Todo.t)
  : bool :=
  match completed with
  | Some b => Bool.eqb (Todo.completed d) b
  | None => true
  end
  && match priority with
     | Some p => if String.eqb p EmptyString then true else String.eqb (Todo.priority d) p
     | None => true
     end.

(** The title or the description holds the search text as a
    case-insensitive substring. *)
Definition mentions (search : string) (d : Todo.t) : Prop :=
  Text.ci_substring search (Todo.title d)
  \/ exists text, Todo.description d = Some text /\ Text.ci_substring search text.

Definition newest_first : list Todo.t -> list Todo.t :=
  sort_docs (in_order CreatedAt (-1)).

Definition no_fields : TodoUpdate.t :=
  TodoUpdate.mk None None None None None None.

(** Sample data for the examples. *)
Definition sample_doc (oid : N) (title : string) (description : option string)
  (completed : bool) (priority : string) (created updated : Z) : Todo.t :=
  Todo.mk oid title description completed priority None [] created updated.

Definition sample_world (docs : list Todo.t) (readings : nat -> Z) : World :=
  {| collection := docs; clock := readings; clock_reads := 0;
     oid_source := fun n => (N.of_nat n + 2 ^ 90)%N; oid_draws := 0 |}.

Definition five_docs : list Todo.t :=
  [ sample_doc 1 "Buy Milk" None false "high" 1000 1000;
    sample_doc 2 "Buy eggs" (Some "a dozen") false "medium" 2000 2000;
    sample_doc 3 "abc" None true "low" 3000 9000;
    sample_doc 4 "Call home" (Some "ask about MILK") true "medium" 4000 8000;
    sample_doc 5 "Read" None false "low" 5000 5000 ].

Definition steady (n : nat) : Z := Z.of_nat n * 250 + 7000000.

(** A record after Toggle at time [now]: the completion flag is flipped and
    [updated_at] is the reading, as the store keeps it. *)
Definition toggled (doc : Todo.t) (now : datetime) : Todo.t :=
  Todo.mk (Todo._id doc) (Todo.title doc) (Todo.description doc)
    (negb (Todo.completed doc)) (Todo.priority doc) (Todo.due_date doc)
    (Todo.tags doc) (Todo.created_at doc) (bson_datetime now).

(** The world after one reading of the clock. *)
Definition tick (w : World) : World :=
  {| collection := collection w; clock := clock w; clock_reads := S (clock_reads w);
     oid_source := oid_source w; oid_draws := oid_draws w |}.

(** A clock whose first two readings lie one microsecond apart, on the two
    sides of a millisecond. *)
Definition across_millisecond (n : nat) : Z := Z.of_nat n + 1999.

Definition milk : TodoCreate.t :=
  TodoCreate.mk "Buy milk" None false "high" None [].

(** A search text without any metacharacter of the pattern syntax. *)
Definition plain (search : string) : bool :=
  forallb (fun c => negb (Pcre.metachar c)) (Text.chars search).

(** No two stored records share an identifier. *)
Definition unique_ids (w : World) : Prop :=
  NoDup (map Todo._id (collection w)).

(** A clock that never runs backwards. *)
Definition monotone (readings : nat -> Z) : Prop :=
  forall i j : nat, (i <= j)%nat -> readings i <= readings j.

(** No stored record is stamped as updated before it was created, nor as
    created after the millisecond of the clock's next reading. *)
Definition stamps_in_order (w : World) : Prop :=
  forall d, In d (collection w) ->
    Todo.created_at d <= Todo.updated_at d
    /\ Todo.created_at d <= bson_datetime (clock w (clock_reads w)).

(** Sorted by the key, the largest first. *)
Definition descending (k : sort_key) (l : list Todo.t) : Prop :=
  Sorted (fun a b => key_of k b <= key_of k a) l.

Definition or_else {A} (o : option A) (d : A) : A :=
  match o with
  | Some a => a
  | None => d
  end.

(** A record after a field-level patch at time [now]: each field that the
    request holds replaces the stored one, the others stay. *)
Definition patched (u : TodoUpdate.t) (doc : Todo.t) (now : datetime) : Todo.t :=
  Todo.mk (Todo._id doc)
    (or_else (TodoUpdate.title u) (Todo.title doc))
    (match TodoUpdate.description u with
     | Some s => Some s
     | None => Todo.description doc
     end)
    (or_else (TodoUpdate.completed u) (Todo.completed doc))
    (or_else (TodoUpdate.priority u) (Todo.priority doc))
    (match TodoUpdate.due_date u with
     | Some d => Some (bson_datetime d)
     | None => Todo.due_date doc
     end)
    (or_else (TodoUpdate.tags u) (Todo.tags doc))
    (Todo.created_at doc)
    (bson_datetime now).

(** A path segment: not empty, no slash in it. *)
Definition segment (s : string) : bool :=
  negb (String.eqb s EmptyString)
  && forallb (fun c => negb (Ascii.eqb c "/"%char)) (Text.chars s).

(** The world after Create has read the clock twice and drawn one
    identifier. *)
Definition after_create_reads (w : World) : World :=
  {| collection := collection w; clock := clock w;
     clock_reads := S (S (clock_reads w));
     oid_source := oid_source w; oid_draws := S (oid_draws w) |}.

(** Update and Toggle either leave the collection alone or rewrite the
    first record of the identifier with a [$set] that ends in the stamp. *)
Definition rewritten (oid : ObjectId.t) (w w' : World) : Prop :=
  clock w' = clock w
  /\ ((clock_reads w' = clock_reads w /\ collection w' = collection w)
      \/ (clock_reads w' = S (clock_reads w)
          /\ (collection w' = collection w
              \/ exists l,
                   collection w'
                   = replace_first (has_id oid)
                       (apply_set (l ++ [SetUpdatedAt (clock w (clock_reads w))]))
                       (collection w)))).

(** One record whose stamp already is the millisecond of the clock's next
    reading. *)
Definition settled_docs : list Todo.t :=
  [ sample_doc 6 "Water plants" None false "low" 6000000 7000000 ].

(** Every stored priority is one of the three that the models admit. *)
Definition priorities_enumerated (w : World) : Prop :=
  forall d, In d (collection w) -> priority_pattern (Todo.priority d) = true.

(** A date parser that refuses every text, for the examples. *)
Definition no_date : string -> option datetime := fun _ => None.

(** ASCII text: every byte between 1 and 127. *)
Definition ascii_text (s : string) : bool :=
  forallb (fun c => let n := N_of_ascii c in (0 <? n)%N && (n <? 128)%N) (Text.chars s).

Definition ascii_record (d : Todo.t) : bool :=
  ascii_text (Todo.title d) && opt_all ascii_text (Todo.description d).

(** Every stored title and description is ASCII text. *)
Definition ascii_store (w : World) : Prop :=
  forall d, In d (collection w) -> ascii_record d = true.

(** What a regular-expression engine does with a pattern of ordinary ASCII
    characters under the caseless option, on an ASCII subject: it accepts the
    pattern and finds it exactly where the subject holds it as a substring
    when case is ignored. *)
Definition literal_caseless (engine : regex_engine) : Prop :=
  forall search : string,
    plain search = true -> ascii_text search = true ->
    exists found : string -> bool,
      engine search "i" = Some found
      /\ forall subject : string,
           ascii_text subject = true ->
           (found subject = true <-> Text.ci_substring search subject).

(** The driver writes skip and limit as integers of at most eight bytes. *)
Definition int64_bound : Z := Eval cbv in 2 ^ 63.

(** No two of the records were created in the same millisecond. *)
Definition distinct_created (l : list Todo.t) : Prop :=
  NoDup (map Todo.created_at l).

(** ** Lists *)

Lemma find_pointwise {A} (p q : A -> bool) (l : list A) :
  (forall x, p x = q x) -> List.find p l = List.find q l.
Proof.
  intros E. induction l as [|x l IH]; simpl; [reflexivity|].
  rewrite E, IH. reflexivity.
Qed.

Lemma replace_first_pointwise (p q : Todo.t -> bool) f l :
  (forall x, p x = q x) -> replace_first p f l = replace_first q f l.
Proof.
  intros E. induction l as [|x l IH]; simpl; [reflexivity|].
  rewrite E, IH. reflexivity.
Qed.

Lemma find_none_existsb {A} (p : A -> bool) (l : list A) :
  List.find p l = None -> existsb p l = false.
Proof.
  induction l as [|x l IH]; simpl; [reflexivity|].
  destruct (p x); [discriminate | exact IH].
Qed.

Lemma find_after {A} (p : A -> bool) (l : list A) (x : A) :
  existsb p l = false -> p x = true -> List.find p (l ++ [x]) = Some x.
Proof.
  induction l as [|y l IH]; simpl; intros Hl Hx.
  - rewrite Hx. reflexivity.
  - apply orb_false_iff in Hl. destruct Hl as [Hy Hl].
    rewrite Hy. apply IH; assumption.
Qed.

(** ** Identifiers that the library accepts *)

Lemma hex_is_not_space (c : ascii) : Text.is_hex c = true -> Text.is_space c = false.
Proof.
  destruct c as [[] [] [] [] [] [] [] []]; intro H; try reflexivity; discriminate H.
Qed.

Lemma fromhex_reads_digits (n : nat) (l : list ascii) :
  List.length l = (2 * n)%nat ->
  forallb Text.is_hex l = true ->
  exists bytes, ObjectId.fromhex l = Some bytes.
Proof.
  revert l. induction n as [|n IH]; intros l Len Hex.
  - destruct l; [|discriminate Len]. exists []. reflexivity.
  - destruct l as [|c [|d rest]]; try (simpl in Len; lia).
    simpl in Hex. apply andb_true_iff in Hex. destruct Hex as [Hc Hex].
    apply andb_true_iff in Hex. destruct Hex as [Hd Hrest].
    destruct (IH rest) as [bytes Read]; [simpl in Len; lia | exact Hrest |].
    cbn [ObjectId.fromhex]. rewrite (hex_is_not_space c Hc), Hc, Hd, Read.
    eexists. reflexivity.
Qed.

(** A canonical text passes the library's check. *)
Lemma canonical_is_accepted (oid : string) :
  ObjectId.is_valid oid = true -> ObjectId.bson_is_valid oid = true.
Proof.
  unfold ObjectId.is_valid, ObjectId.bson_is_valid. intros H.
  apply andb_true_iff in H. destruct H as [Len Hex]. rewrite Len. cbn [andb].
  apply Nat.eqb_eq in Len.
  change 24%nat with (2 * 12)%nat in Len.
  destruct (fromhex_reads_digits 12 (Text.chars oid)) as [bytes Read].
  - rewrite <- Len. unfold Text.chars. clear.
    induction oid as [|c oid IH]; simpl; [reflexivity|].
    rewrite IH. reflexivity.
  - exact Hex.
  - rewrite Read. reflexivity.
Qed.

(** The library accepts more than the canonical texts: 24 characters with
    white space between the bytes pass its check, so the operations by
    identifier go on to the store with them. *)
Lemma spaced_identifier_is_accepted :
  ObjectId.bson_is_valid "00000000000000000000  03" = true
  /\ ObjectId.is_valid "00000000000000000000  03" = false.
Proof.
  split; reflexivity.
Qed.

(** ** The store, keyed by identifier *)

Section ById.

Variable engine : regex_engine.

Lemma find_one_by_id oid w :
  Collection.find_one engine [Id oid] w = (Ok (lookup oid w), w).
Proof.
  unfold Collection.find_one, lookup. simpl.
  f_equal. f_equal. apply find_pointwise. intro d. apply andb_true_r.
Qed.

Lemma get_todo_valid todo_id w :
  ObjectId.bson_is_valid todo_id = true ->
  TodoCRUD.get_todo engine todo_id w = (Ok (lookup (ObjectId.of_str todo_id) w), w).
Proof.
  intros V. unfold TodoCRUD.get_todo. rewrite V. simpl.
  unfold bind. rewrite find_one_by_id.
  destruct (lookup (ObjectId.of_str todo_id) w); reflexivity.
Qed.

Lemma update_one_by_id oid update_dict w :
  Collection.update_one engine [Id oid] update_dict w =
  match lookup oid w with
  | Some d =>
      if Todo.eq_dec (apply_set update_dict d) d
      then (Ok {| matched_count := 1; modified_count := 0 |}, w)
      else (Ok {| matched_count := 1; modified_count := 1 |},
            with_collection w
              (replace_first (has_id oid) (apply_set update_dict) (collection w)))
  | None => (Ok {| matched_count := 0; modified_count := 0 |}, w)
  end.
Proof.
  unfold Collection.update_one, lookup. simpl.
  rewrite (find_pointwise _ (has_id oid) (collection w))
    by (intro d; apply andb_true_r).
  rewrite (replace_first_pointwise _ (has_id oid))
    by (intro d; apply andb_true_r).
  reflexivity.
Qed.

Lemma delete_one_absent oid w :
  lookup oid w = None ->
  Collection.delete_one engine [Id oid] w = (Ok {| deleted_count := 0 |}, w).
Proof.
  intros H. unfold Collection.delete_one. simpl.
  assert (E : existsb (fun d => ObjectId.eqb (Todo._id d) oid && true) (collection w) = false).
  { apply find_none_existsb. rewrite <- H. unfold lookup.
    apply find_pointwise. intro d. apply andb_true_r. }
  rewrite E. reflexivity.
Qed.

End ById.

(** ** Identifiers that are not well formed *)



(** ** Update *)

(** C7. An update request with no present field leaves the world as it was
    (the stored record with it, [updated_at] included) and returns the
    record that is stored under the identifier. *)
Theorem update_without_fields_is_noop (engine : regex_engine) (todo_id : string)
  (u : TodoUpdate.t) (doc : Todo.t) (w : World) :
  ObjectId.is_valid todo_id = true ->
  lookup (ObjectId.of_str todo_id) w = Some doc ->
  TodoCRUD.present_fields u = [] ->
  TodoCRUD.update_todo engine todo_id u w = (Ok (Some doc), w).
Proof.
  intros Good Stored Empty.
  apply canonical_is_accepted in Good.
  unfold TodoCRUD.update_todo. rewrite Good, Empty. simpl.
  rewrite get_todo_valid by exact Good. rewrite Stored. reflexivity.
Qed.

Lemma update_without_fields_is_noop_witness :
  TodoCRUD.update_todo Pcre.engine "000000000000000000000003" no_fields
    (sample_world five_docs steady)
  = (Ok (Some (sample_doc 3 "abc" None true "low" 3000 9000)),
     sample_world five_docs steady).
Proof.
  apply (update_without_fields_is_noop Pcre.engine "000000000000000000000003"
           no_fields (sample_doc 3 "abc" None true "low" 3000 9000)
           (sample_world five_docs steady)); reflexivity.
Defined.

Lemma apply_assignment_id d a : Todo._id (apply_assignment d a) = Todo._id d.
Proof. destruct a; reflexivity. Qed.

Lemma apply_set_id update_dict d : Todo._id (apply_set update_dict d) = Todo._id d.
Proof.
  unfold apply_set. revert d.
  induction update_dict as [|a l IH]; intro d; simpl; [reflexivity|].
  rewrite IH. apply apply_assignment_id.
Qed.

Lemma apply_set_last update_dict a d :
  apply_set (update_dict ++ [a]) d = apply_assignment (apply_set update_dict d) a.
Proof. unfold apply_set. rewrite fold_left_app. reflexivity. Qed.

Lemma find_replace_first_same oid f l d :
  List.find (has_id oid) l = Some d ->
  (forall x, Todo._id (f x) = Todo._id x) ->
  List.find (has_id oid) (replace_first (has_id oid) f l) = Some (f d).
Proof.
  intros Hd Hf. induction l as [|x l IH]; simpl in *; [discriminate|].
  destruct (has_id oid x) eqn:Hx.
  - injection Hd as <-. simpl.
    unfold has_id in *. rewrite Hf, Hx. reflexivity.
  - simpl. rewrite Hx. apply IH. exact Hd.
Qed.

Lemma find_replace_first_other oid other f l :
  other <> oid ->
  (forall x, Todo._id (f x) = Todo._id x) ->
  List.find (has_id other) (replace_first (has_id oid) f l) = List.find (has_id other) l.
Proof.
  intros Ne Hf. induction l as [|x l IH]; simpl; [reflexivity|].
  destruct (has_id oid x) eqn:Hx; simpl.
  - unfold has_id in *. rewrite Hf.
    apply N.eqb_eq in Hx. rewrite Hx.
    destruct (ObjectId.eqb oid other) eqn:E; [|reflexivity].
    apply N.eqb_eq in E. congruence.
  - rewrite IH. reflexivity.
Qed.

Lemma replace_first_length p f l :
  List.length (replace_first p f l) = List.length l.
Proof.
  induction l as [|x l IH]; simpl; [reflexivity|].
  destruct (p x); simpl; [reflexivity | rewrite IH; reflexivity].
Qed.

(** C3 (as amended). Update stamps [updated_at] with the clock reading
    whenever the request has at least one present field, whether or not a
    stored value differs from the one sent; with no present field the record
    and its [updated_at] stay as they were. *)
Theorem update_stamps_when_a_field_is_present (engine : regex_engine)
  (todo_id : string) (u : TodoUpdate.t) (doc : Todo.t) (w : World) :
  ObjectId.is_valid todo_id = true ->
  lookup (ObjectId.of_str todo_id) w = Some doc ->
  let now := clock w (clock_reads w) in
  let after := snd (TodoCRUD.update_todo engine todo_id u w) in
  lookup (ObjectId.of_str todo_id) after
  = Some (match TodoCRUD.present_fields u with
          | [] => doc
          | a :: rest => apply_set ((a :: rest) ++ [SetUpdatedAt now]) doc
          end)
  /\ (TodoCRUD.present_fields u <> [] ->
      option_map Todo.updated_at (lookup (ObjectId.of_str todo_id) after)
      = Some (bson_datetime now)).
Proof.
  intros Good Stored now after.
  apply canonical_is_accepted in Good.
  assert (First :
    lookup (ObjectId.of_str todo_id) after
    = Some (match TodoCRUD.present_fields u with
            | [] => doc
            | a :: rest => apply_set ((a :: rest) ++ [SetUpdatedAt now]) doc
            end)).
  { subst after. unfold TodoCRUD.update_todo. rewrite Good. cbn [negb].
    destruct (TodoCRUD.present_fields u) as [|a rest].
    - rewrite get_todo_valid by exact Good. exact Stored.
    - remember (a :: rest) as present eqn:Present.
      unfold bind, utcnow. rewrite update_one_by_id.
      unfold lookup in *. cbn [collection]. rewrite Stored. fold now.
      destruct (Todo.eq_dec (apply_set (present ++ [SetUpdatedAt now]) doc) doc)
        as [Same|Changed]; cbn [modified_count Z.eqb negb].
      + rewrite Same. exact Stored.
      + rewrite get_todo_valid by exact Good. cbn [snd with_collection collection].
        apply find_replace_first_same; [exact Stored|].
        intro x. apply apply_set_id. }
  split; [exact First|].
  intros Present. rewrite First. simpl.
  destruct (TodoCRUD.present_fields u) as [|a rest]; [congruence|].
  rewrite apply_set_last. reflexivity.
Qed.

Lemma update_stamps_when_a_field_is_present_witness :
  option_map Todo.updated_at
    (lookup 3%N
       (snd (TodoCRUD.update_todo Pcre.engine "000000000000000000000003"
               (TodoUpdate.mk (Some "abc") None None None None None)
               (sample_world five_docs steady))))
  = Some 7000000.
Proof.
  apply (update_stamps_when_a_field_is_present Pcre.engine "000000000000000000000003"
           (TodoUpdate.mk (Some "abc") None None None None None)
           (sample_doc 3 "abc" None true "low" 3000 9000)
           (sample_world five_docs steady)).
  - reflexivity.
  - reflexivity.
  - discriminate.
Defined.

(** C3 as stated fails: the stored title is already "abc", the request
    sends title "abc" and nothing else, and [updated_at] moves from 9000 to
    the clock's reading all the same. *)
Lemma update_stamps_unchanged_values :
  ~ (forall (engine : regex_engine) (todo_id : string) (u : TodoUpdate.t)
            (doc : Todo.t) (w : World),
        ObjectId.is_valid todo_id = true ->
        lookup (ObjectId.of_str todo_id) w = Some doc ->
        apply_set (TodoCRUD.present_fields u) doc = doc ->
        option_map Todo.updated_at
          (lookup (ObjectId.of_str todo_id)
             (snd (TodoCRUD.update_todo engine todo_id u w)))
        = Some (Todo.updated_at doc)).
Proof.
  intros Claim.
  specialize (Claim Pcre.engine "000000000000000000000003"
                (TodoUpdate.mk (Some "abc") None None None None None)
                (sample_doc 3 "abc" None true "low" 3000 9000)
                (sample_world five_docs steady)
                eq_refl eq_refl eq_refl).
  vm_compute in Claim. discriminate Claim.
Qed.

(** ** Toggle *)

Lemma toggled_is_set doc now :
  apply_set [SetCompleted (negb (Todo.completed doc)); SetUpdatedAt now] doc
  = toggled doc now.
Proof. reflexivity. Qed.

Lemma toggled_differs doc now : toggled doc now <> doc.
Proof.
  intros Same. apply (f_equal Todo.completed) in Same. simpl in Same.
  destruct (Todo.completed doc); discriminate.
Qed.

(** One Toggle of a stored record: the result, and the world afterwards. *)
Lemma toggle_step (engine : regex_engine) (todo_id : string) (doc : Todo.t) (w : World) :
  ObjectId.bson_is_valid todo_id = true ->
  lookup (ObjectId.of_str todo_id) w = Some doc ->
  let once := toggled doc (clock w (clock_reads w)) in
  let w' := with_collection (tick w)
              (replace_first (has_id (ObjectId.of_str todo_id))
                 (apply_set [SetCompleted (negb (Todo.completed doc));
                             SetUpdatedAt (clock w (clock_reads w))])
                 (collection w)) in
  TodoCRUD.toggle_todo engine todo_id w = (Ok (Some once), w')
  /\ lookup (ObjectId.of_str todo_id) w' = Some once.
Proof.
  intros Good Stored once w'.
  assert (After : lookup (ObjectId.of_str todo_id) w' = Some once).
  { subst w' once. unfold lookup in *. cbn [with_collection collection].
    rewrite <- toggled_is_set.
    apply find_replace_first_same; [exact Stored|].
    intro x. apply apply_set_id. }
  split; [|exact After].
  unfold TodoCRUD.toggle_todo. rewrite Good. cbn [negb].
  unfold bind at 1. rewrite get_todo_valid by exact Good. rewrite Stored.
  unfold bind, utcnow. rewrite update_one_by_id.
  unfold lookup at 1. cbn [collection]. unfold lookup in Stored. rewrite Stored.
  rewrite toggled_is_set.
  destruct (Todo.eq_dec (toggled doc (clock w (clock_reads w))) doc) as [Same|Changed].
  - exfalso. exact (toggled_differs _ _ Same).
  - cbn [modified_count Z.eqb negb].
    fold (tick w). fold w'.
    rewrite get_todo_valid by exact Good. rewrite After. reflexivity.
Qed.

(** C10. Toggle of a stored record changes [completed] and [updated_at] and
    no other field of it, leaves every other record and the size of the
    collection alone, and a second Toggle brings [completed] back. *)
Theorem toggle_touches_two_fields (engine : regex_engine) (todo_id : string)
  (doc : Todo.t) (w : World) :
  ObjectId.is_valid todo_id = true ->
  lookup (ObjectId.of_str todo_id) w = Some doc ->
  let once :=
    Todo.mk (Todo._id doc) (Todo.title doc) (Todo.description doc)
      (negb (Todo.completed doc)) (Todo.priority doc) (Todo.due_date doc)
      (Todo.tags doc) (Todo.created_at doc)
      (bson_datetime (clock w (clock_reads w))) in
  let twice :=
    Todo.mk (Todo._id doc) (Todo.title doc) (Todo.description doc)
      (Todo.completed doc) (Todo.priority doc) (Todo.due_date doc)
      (Todo.tags doc) (Todo.created_at doc)
      (bson_datetime (clock w (S (clock_reads w)))) in
  exists w1 w2 : World,
    TodoCRUD.toggle_todo engine todo_id w = (Ok (Some once), w1)
    /\ lookup (ObjectId.of_str todo_id) w1 = Some once
    /\ (forall other, other <> ObjectId.of_str todo_id -> lookup other w1 = lookup other w)
    /\ List.length (collection w1) = List.length (collection w)
    /\ TodoCRUD.toggle_todo engine todo_id w1 = (Ok (Some twice), w2)
    /\ lookup (ObjectId.of_str todo_id) w2 = Some twice.
Proof.
  intros Good Stored once twice.
  apply canonical_is_accepted in Good.
  destruct (toggle_step engine todo_id doc w Good Stored) as [Run1 After1].
  fold (toggled doc (clock w (clock_reads w))) in once.
  set (w1 := with_collection (tick w)
               (replace_first (has_id (ObjectId.of_str todo_id))
                  (apply_set [SetCompleted (negb (Todo.completed doc));
                              SetUpdatedAt (clock w (clock_reads w))])
                  (collection w))) in *.
  destruct (toggle_step engine todo_id once w1 Good After1) as [Run2 After2].
  assert (Back : toggled once (clock w1 (clock_reads w1)) = twice).
  { subst once twice. unfold toggled. simpl. rewrite negb_involutive. reflexivity. }
  rewrite Back in Run2, After2.
  eexists w1, _. repeat split.
  - exact Run1.
  - exact After1.
  - intros other Ne. unfold lookup. subst w1. cbn [with_collection collection].
    apply find_replace_first_other; [exact Ne|].
    intro x. apply apply_set_id.
  - subst w1. cbn [with_collection collection]. apply replace_first_length.
  - exact Run2.
  - exact After2.
Qed.

Lemma toggle_touches_two_fields_witness :
  exists w1 w2 : World,
    TodoCRUD.toggle_todo Pcre.engine "000000000000000000000001"
      (sample_world five_docs steady)
    = (Ok (Some (Todo.mk 1%N "Buy Milk" None true "high" None [] 1000 7000000)), w1)
    /\ TodoCRUD.toggle_todo Pcre.engine "000000000000000000000001" w1
       = (Ok (Some (Todo.mk 1%N "Buy Milk" None false "high" None [] 1000 7000000)), w2).
Proof.
  destruct (toggle_touches_two_fields Pcre.engine "000000000000000000000001"
              (sample_doc 1 "Buy Milk" None false "high" 1000 1000)
              (sample_world five_docs steady) eq_refl eq_refl)
    as (w1 & w2 & Run1 & _ & _ & _ & Run2 & _).
  exists w1, w2. split; [exact Run1 | exact Run2].
Defined.

(** ** Create *)

Lemma hex_length digits n acc :
  String.length (ObjectId.hex digits n acc) = (digits + String.length acc)%nat.
Proof.
  revert n acc. induction digits as [|k IH]; intros n acc; simpl; [reflexivity|].
  rewrite IH. simpl. lia.
Qed.

Lemma str_length oid : String.length (ObjectId.str oid) = 24%nat.
Proof. unfold ObjectId.str. rewrite hex_length. reflexivity. Qed.

Lemma bson_datetime_same_millisecond a b :
  bson_datetime a = bson_datetime b <-> a / 1000 = b / 1000.
Proof. unfold bson_datetime. lia. Qed.

(** C2 (as amended). When the generated identifier is not yet taken, Create
    returns the record it stored: its id is written with 24 hexadecimal
    digits, hence is not empty, and [created_at] and [updated_at] are the
    clock's next two readings, each cut to whole milliseconds; the two
    stamps are equal exactly when both readings fall into one millisecond. *)
Theorem create_stamps_two_readings (engine : regex_engine) (todo : TodoCreate.t)
  (w : World) :
  let oid := (oid_source w (oid_draws w) mod ObjectId.modulus)%N in
  let first := clock w (clock_reads w) in
  let second := clock w (S (clock_reads w)) in
  existsb (has_id oid) (collection w) = false ->
  exists (doc : Todo.t) (w' : World),
    TodoCRUD.create_todo engine todo w = (Ok doc, w')
    /\ doc = stored oid {| fields := todo; new_created_at := first;
                           new_updated_at := second |}
    /\ collection w' = collection w ++ [doc]
    /\ String.length (ObjectId.str (Todo._id doc)) = 24%nat
    /\ ObjectId.str (Todo._id doc) <> EmptyString
    /\ Todo.created_at doc = bson_datetime first
    /\ Todo.updated_at doc = bson_datetime second
    /\ (Todo.created_at doc = Todo.updated_at doc <-> first / 1000 = second / 1000).
Proof.
  intros oid first second Fresh.
  set (doc := stored oid {| fields := todo; new_created_at := first;
                            new_updated_at := second |}).
  assert (Found : List.find (has_id oid) (collection w ++ [doc]) = Some doc).
  { apply find_after; [exact Fresh|]. unfold has_id. simpl. apply N.eqb_refl. }
  exists doc. eexists.
  split.
  { unfold TodoCRUD.create_todo, Collection.insert_one, new_object_id.
    unfold bind at 1. unfold utcnow at 1.
    unfold bind at 1. unfold utcnow at 1. cbn [clock clock_reads].
    unfold bind at 1. unfold bind at 1. cbn [oid_source oid_draws collection].
    fold oid first second. unfold has_id in Fresh. rewrite Fresh.
    unfold bind. rewrite find_one_by_id.
    unfold lookup. cbn [with_collection collection]. fold doc.
    rewrite Found. reflexivity. }
  split; [reflexivity|].
  split; [reflexivity|].
  split; [apply str_length|].
  split.
  { intros Empty. pose proof (str_length (Todo._id doc)) as L.
    rewrite Empty in L. discriminate L. }
  split; [reflexivity|].
  split; [reflexivity|].
  apply bson_datetime_same_millisecond.
Qed.

Lemma create_stamps_two_readings_witness :
  exists (doc : Todo.t) (w' : World),
    TodoCRUD.create_todo Pcre.engine milk (sample_world five_docs steady) = (Ok doc, w')
    /\ Todo.created_at doc = 7000000 /\ Todo.updated_at doc = 7000000.
Proof.
  destruct (create_stamps_two_readings Pcre.engine milk
              (sample_world five_docs steady) eq_refl)
    as (doc & w' & Run & _ & _ & _ & _ & Created & Updated & _).
  exists doc, w'. repeat split; assumption.
Defined.

(** C2 as stated fails: Create reads the clock twice, and with readings at
    1999 and 2000 microseconds the record comes back with [created_at] 1000
    and [updated_at] 2000. *)
Lemma create_stamps_may_differ :
  ~ (forall (engine : regex_engine) (todo : TodoCreate.t) (w w' : World) (doc : Todo.t),
        TodoCreate.valid todo = true ->
        TodoCRUD.create_todo engine todo w = (Ok doc, w') ->
        ObjectId.str (Todo._id doc) <> EmptyString
        /\ Todo.created_at doc = Todo.updated_at doc).
Proof.
  intros Claim.
  assert (Valid : TodoCreate.valid milk = true) by reflexivity.
  assert (Returned :
    fst (TodoCRUD.create_todo Pcre.engine milk (sample_world five_docs across_millisecond))
    = Ok (Todo.mk (2 ^ 90)%N "Buy milk" None false "high" None [] 1000 2000))
    by (vm_compute; reflexivity).
  destruct (TodoCRUD.create_todo Pcre.engine milk
              (sample_world five_docs across_millisecond)) as [r w'] eqn:Run.
  simpl in Returned. subst r.
  destruct (Claim _ _ _ _ _ Valid Run) as [_ Equal].
  discriminate Equal.
Qed.

(** ** List and Count *)

Lemma insert_sorted_length le x l :
  List.length (insert_sorted le x l) = S (List.length l).
Proof.
  induction l as [|y l IH]; simpl; [reflexivity|].
  destruct (le x y); simpl; [reflexivity | rewrite IH; reflexivity].
Qed.

Lemma sort_docs_length le l : List.length (sort_docs le l) = List.length l.
Proof.
  induction l as [|x l IH]; simpl; [reflexivity|].
  rewrite insert_sorted_length, IH. reflexivity.
Qed.

Lemma insert_sorted_in le x l d : In d (insert_sorted le x l) <-> d = x \/ In d l.
Proof.
  induction l as [|y l IH]; simpl.
  - intuition congruence.
  - destruct (le x y); simpl; [intuition congruence|].
    rewrite IH. intuition congruence.
Qed.

Lemma sort_docs_in le l d : In d (sort_docs le l) <-> In d l.
Proof.
  induction l as [|x l IH]; simpl; [reflexivity|].
  rewrite insert_sorted_in, IH. intuition congruence.
Qed.

Lemma firstn_whole {A} (l : list A) n : (List.length l <= n)%nat -> firstn n l = l.
Proof. intros H. apply firstn_all2. exact H. Qed.

Section Queries.

Variable engine : regex_engine.

(** List, when the store accepts the filter and the window is well formed. *)
Lemma get_todos_run skip limit completed priority search pr w :
  Collection.filter_pred engine (TodoCRUD.build_filter completed priority search) = Some pr ->
  0 <= skip -> 0 <= limit ->
  TodoCRUD.get_todos engine skip limit completed priority search w
  = (Ok (firstn (Z.to_nat limit)
           (skipn (Z.to_nat skip) (newest_first (List.filter pr (collection w))))), w).
Proof.
  intros Accepted Hskip Hlimit.
  unfold TodoCRUD.get_todos, Collection.skip, Collection.limit, Collection.sort,
    Collection.to_list, Collection.fetch, Collection.query, Collection.find.
  assert (S0 : (skip <? 0) = false) by lia.
  assert (L0 : (limit <? 0) = false) by lia.
  rewrite S0, L0. unfold bind, ret. cbn [cursor_filter cursor_skip cursor_limit cursor_sort].
  rewrite Accepted. fold newest_first.
  f_equal. f_equal.
  destruct (limit =? 0) eqn:Z0.
  - reflexivity.
  - rewrite firstn_firstn. rewrite Z.abs_eq by exact Hlimit.
    rewrite Nat.min_id. reflexivity.
Qed.

Lemma get_todos_count_run completed priority search pr w :
  Collection.filter_pred engine (TodoCRUD.build_filter completed priority search) = Some pr ->
  TodoCRUD.get_todos_count engine completed priority search w
  = (Ok (Z.of_nat (List.length (List.filter pr (collection w)))), w).
Proof.
  intros Accepted.
  unfold TodoCRUD.get_todos_count, Collection.count_documents, Collection.query, bind, ret.
  rewrite Accepted. reflexivity.
Qed.

Lemma get_todos_rejected skip limit completed priority search w :
  Collection.filter_pred engine (TodoCRUD.build_filter completed priority search) = None ->
  0 <= skip -> 0 <= limit ->
  TodoCRUD.get_todos engine skip limit completed priority search w
  = (Raise OperationFailure, w).
Proof.
  intros Rejected Hskip Hlimit.
  unfold TodoCRUD.get_todos, Collection.skip, Collection.limit, Collection.sort,
    Collection.to_list, Collection.fetch, Collection.query, Collection.find.
  assert (S0 : (skip <? 0) = false) by lia.
  assert (L0 : (limit <? 0) = false) by lia.
  rewrite S0, L0. unfold bind, ret. cbn [cursor_filter cursor_skip cursor_limit cursor_sort].
  rewrite Rejected. reflexivity.
Qed.

Lemma get_todos_count_rejected completed priority search w :
  Collection.filter_pred engine (TodoCRUD.build_filter completed priority search) = None ->
  TodoCRUD.get_todos_count engine completed priority search w
  = (Raise OperationFailure, w).
Proof.
  intros Rejected.
  unfold TodoCRUD.get_todos_count, Collection.count_documents, Collection.query, bind, ret.
  rewrite Rejected. reflexivity.
Qed.

(** Only the search text can make the store refuse the filter. *)
Lemma filter_rejected_by_search completed priority search :
  Collection.filter_pred engine (TodoCRUD.build_filter completed priority search) = None ->
  exists text, search = Some text /\ text <> EmptyString /\ engine text "i" = None.
Proof.
  unfold TodoCRUD.build_filter, TodoCRUD.truthy. intros Rejected.
  destruct search as [text|].
  - destruct (String.eqb text EmptyString) eqn:E.
    + destruct completed, priority as [p|]; try destruct (String.eqb p EmptyString);
        simpl in Rejected; discriminate Rejected.
    + exists text. split; [reflexivity|]. split.
      * intro H. subst text. discriminate E.
      * destruct (engine text "i") eqn:En; [|reflexivity]. exfalso.
        destruct completed, priority as [p|]; try destruct (String.eqb p EmptyString);
          simpl in Rejected; unfold Collection.clause_pred in Rejected;
          simpl in Rejected; rewrite En in Rejected; discriminate Rejected.
  - destruct completed, priority as [p|]; try destruct (String.eqb p EmptyString);
      simpl in Rejected; discriminate Rejected.
Qed.

End Queries.

Lemma filter_without_search (engine : regex_engine) completed priority search :
  search = None \/ search = Some EmptyString ->
  exists pr,
    Collection.filter_pred engine (TodoCRUD.build_filter completed priority search) = Some pr
    /\ forall d, pr d = constrains completed priority d.
Proof.
  intros [-> | ->]; unfold TodoCRUD.build_filter, TodoCRUD.truthy, constrains;
    destruct completed as [b|], priority as [p|];
    try destruct (String.eqb p EmptyString);
    simpl; eexists; (split; [reflexivity|]); intro d; simpl;
    rewrite ?andb_true_r; reflexivity.
Qed.

(** C5. Count gives the number of records that List returns for offset 0
    and that count as limit, under the same filters.  Both fail together, in
    the one case where the store refuses the search text as a regular
    expression. *)
Theorem count_is_length_of_unpaged_list (engine : regex_engine)
  (completed : option bool) (priority search : option string) (w : World) :
  (exists (n : Z) (docs : list Todo.t),
      TodoCRUD.get_todos_count engine completed priority search w = (Ok n, w)
      /\ TodoCRUD.get_todos engine 0 n completed priority search w = (Ok docs, w)
      /\ Z.of_nat (List.length docs) = n)
  \/ (exists text,
        search = Some text /\ text <> EmptyString /\ engine text "i" = None
        /\ TodoCRUD.get_todos_count engine completed priority search w
           = (Raise OperationFailure, w)
        /\ forall limit, 0 <= limit ->
             TodoCRUD.get_todos engine 0 limit completed priority search w
             = (Raise OperationFailure, w)).
Proof.
  destruct (Collection.filter_pred engine
              (TodoCRUD.build_filter completed priority search)) as [pr|] eqn:F.
  - left.
    exists (Z.of_nat (List.length (List.filter pr (collection w)))).
    eexists. split; [apply get_todos_count_run; exact F|].
    split; [apply get_todos_run; [exact F | lia | lia]|].
    rewrite Nat2Z.id. cbn [Z.to_nat skipn].
    rewrite firstn_whole by (unfold newest_first; rewrite sort_docs_length; lia).
    unfold newest_first. rewrite sort_docs_length. reflexivity.
  - right.
    destruct (filter_rejected_by_search engine completed priority search F)
      as (text & Is & NonEmpty & Refused).
    exists text. repeat split; try assumption.
    + apply get_todos_count_rejected. exact F.
    + intros limit Hlimit. apply get_todos_rejected; [exact F | lia | exact Hlimit].
Qed.

(** C8 (as amended). An absent completion filter and an absent priority
    filter ask nothing of a record; [completed = false] is a filter of its own
    and keeps the incomplete records; a priority that is supplied as the empty
    string is treated as if it were omitted, and any other supplied priority
    keeps the records of that priority. *)
Theorem absent_and_empty_filters (engine : regex_engine) (completed : option bool)
  (priority search : option string) (w : World) :
  TodoCRUD.build_filter completed (Some EmptyString) search
  = TodoCRUD.build_filter completed None search
  /\ TodoCRUD.get_todos_count engine completed priority None w
     = (Ok (Z.of_nat (List.length (List.filter (constrains completed priority)
                                     (collection w)))), w)
  /\ TodoCRUD.get_todos engine 0 (Z.of_nat (List.length (collection w)))
       completed priority None w
     = (Ok (newest_first (List.filter (constrains completed priority) (collection w))), w)
  /\ TodoCRUD.get_todos_count engine None None None w
     = (Ok (Z.of_nat (List.length (collection w))), w)
  /\ TodoCRUD.get_todos_count engine (Some false) None None w
     = (Ok (Z.of_nat (List.length (List.filter (fun d => negb (Todo.completed d))
                                     (collection w)))), w).
Proof.
  split; [reflexivity|].
  destruct (filter_without_search engine completed priority None (or_introl eq_refl))
    as (pr & F & Same).
  assert (Sel : List.filter pr (collection w)
                = List.filter (constrains completed priority) (collection w))
    by (apply filter_ext; exact Same).
  split; [|split; [|split]].
  - rewrite (get_todos_count_run engine completed priority None pr w F), Sel.
    reflexivity.
  - rewrite (get_todos_run engine 0 _ completed priority None pr w F) by lia.
    rewrite Sel, Nat2Z.id. cbn [Z.to_nat skipn].
    rewrite firstn_whole; [reflexivity|].
    unfold newest_first. rewrite sort_docs_length. apply filter_length_le.
  - unfold TodoCRUD.get_todos_count, Collection.count_documents, Collection.query,
      bind, ret. simpl.
    assert (All : forall l : list Todo.t, List.filter (fun _ => true) l = l).
    { induction l as [|x l IH]; simpl; [reflexivity | rewrite IH; reflexivity]. }
    rewrite All. reflexivity.
  - unfold TodoCRUD.get_todos_count, Collection.count_documents, Collection.query,
      bind, ret. simpl.
    erewrite filter_ext; [reflexivity|].
    intro d. simpl. destruct (Todo.completed d); reflexivity.
Qed.

(** C8 as stated fails for the priority filter: supplied as the empty
    string it is dropped, so Count answers 5 on the five sample records, none
    of which has the empty priority. *)
Lemma empty_priority_is_dropped :
  ~ (forall (engine : regex_engine) (p : string) (w : World),
        TodoCRUD.get_todos_count engine None (Some p) None w
        = (Ok (Z.of_nat (List.length
                           (List.filter (fun d => String.eqb (Todo.priority d) p)
                              (collection w)))), w)).
Proof.
  intros Claim.
  specialize (Claim Pcre.engine EmptyString (sample_world five_docs steady)).
  apply (f_equal fst) in Claim. vm_compute in Claim. discriminate Claim.
Qed.

(** ** The order of a listing *)

Lemma in_order_descending k x y :
  in_order k (-1) x y = true <-> key_of k y <= key_of k x.
Proof. unfold in_order. simpl. apply Z.leb_le. Qed.

Lemma insert_sorted_descending k x l :
  descending k l -> descending k (insert_sorted (in_order k (-1)) x l).
Proof.
  unfold descending. induction l as [|y l IH]; simpl; intros Srt.
  - constructor; constructor.
  - destruct (in_order k (-1) x y) eqn:Le.
    + constructor; [exact Srt|]. constructor. apply in_order_descending. exact Le.
    + inversion Srt as [|? ? S' Hd]; subst.
      constructor; [apply IH; exact S'|].
      assert (Below : key_of k x <= key_of k y).
      { destruct (Z.le_gt_cases (key_of k y) (key_of k x)) as [H|H]; [|lia].
        apply in_order_descending in H. congruence. }
      destruct l as [|z l]; simpl.
      * constructor. exact Below.
      * destruct (in_order k (-1) x z); constructor; [exact Below|].
        inversion Hd; subst. assumption.
Qed.

Lemma sort_docs_descending k l : descending k (sort_docs (in_order k (-1)) l).
Proof.
  induction l as [|x l IH]; simpl.
  - constructor.
  - apply insert_sorted_descending. exact IH.
Qed.

Lemma insert_sorted_permutation le x l : Permutation (insert_sorted le x l) (x :: l).
Proof.
  induction l as [|y l IH]; simpl; [reflexivity|].
  destruct (le x y); [reflexivity|].
  rewrite IH. apply perm_swap.
Qed.

Lemma sort_docs_permutation le l : Permutation (sort_docs le l) l.
Proof.
  induction l as [|x l IH]; simpl; [reflexivity|].
  rewrite insert_sorted_permutation, IH. reflexivity.
Qed.

(** ** Pagination *)

(** C9 (as amended). For a page number from 1 on, a limit that is not
    negative, an offset [(page-1)*limit] and a limit that the driver can
    write in eight bytes, and filters that the store accepts, both list
    endpoints answer with the window at that offset of the selected records
    in an order by [created_at] descending, the total of Count, [has_next] as
    [offset + limit < total] and [has_prev] as [page > 1].  A window that
    starts at or beyond the total is empty with [has_next] false; [has_prev]
    is true as soon as the offset is positive, and false on page 1. *)
Theorem pagination_contract (engine : regex_engine) (page limit : Z)
  (completed : option bool) (priority search : option string)
  (pr : Todo.t -> bool) (w : World) :
  Collection.filter_pred engine (TodoCRUD.build_filter completed priority search) = Some pr ->
  1 <= page ->
  0 <= limit < int64_bound ->
  (page - 1) * limit < int64_bound ->
  let offset := (page - 1) * limit in
  let total := Z.of_nat (List.length (List.filter pr (collection w))) in
  exists sorted : list Todo.t,
    Permutation sorted (List.filter pr (collection w))
    /\ descending CreatedAt sorted
    /\ let window := firstn (Z.to_nat limit) (skipn (Z.to_nat offset) sorted) in
       Main.get_todos engine page limit completed priority search w
       = (Ok {| Main.status_code := 200;
                Main.content :=
                  Main.Page {| todos := window; total := total; page := page;
                               limit := limit;
                               has_next := offset + limit <? total;
                               has_prev := 1 <? page |} |}, w)
       /\ McpServer.get_todos engine page limit completed priority search w
          = (Ok (McpServer.Success window
                   {| McpServer.page := page; McpServer.limit := limit;
                      McpServer.total := total;
                      McpServer.has_next := offset + limit <? total;
                      McpServer.has_prev := 1 <? page |}), w)
       /\ (total <= offset -> window = [] /\ (offset + limit <? total) = false)
       /\ (0 < offset -> (1 <? page) = true)
       /\ (page = 1 -> (1 <? page) = false).
Proof.
  intros Accepted Hpage Hlimit Fits offset total.
  assert (Hoffset : 0 <= offset) by (subst offset; nia).
  exists (newest_first (List.filter pr (collection w))).
  split; [apply sort_docs_permutation|].
  split; [apply sort_docs_descending|].
  cbv zeta.
  assert (Run : TodoCRUD.get_todos engine offset limit completed priority search w
                = (Ok (firstn (Z.to_nat limit)
                         (skipn (Z.to_nat offset)
                            (newest_first (List.filter pr (collection w))))), w))
    by (apply get_todos_run; [exact Accepted | exact Hoffset | lia]).
  assert (Count : TodoCRUD.get_todos_count engine completed priority search w
                  = (Ok total, w))
    by (apply get_todos_count_run; exact Accepted).
  split; [|split; [|split; [|split]]].
  - unfold Main.get_todos, try_except, bind. fold offset.
    rewrite Run, Count. reflexivity.
  - unfold McpServer.get_todos, try_except, bind. fold offset.
    rewrite Run, Count. reflexivity.
  - intros Beyond. split; [|lia].
    rewrite skipn_all2; [apply firstn_nil|].
    unfold newest_first. rewrite sort_docs_length. subst total. lia.
  - intros Positive. subst offset. apply Z.ltb_lt. nia.
  - intros ->. reflexivity.
Qed.

(** The scenario of the specification: five records, page 2 with limit 10. *)
Lemma pagination_contract_witness :
  fst (Main.get_todos Pcre.engine 2 10 None None None (sample_world five_docs steady))
  = Ok {| Main.status_code := 200;
          Main.content :=
            Main.Page {| todos := []; total := 5; page := 2; limit := 10;
                         has_next := false; has_prev := true |} |}.
Proof.
  assert (P := pagination_contract Pcre.engine 2 10 None None None (fun _ => true)
                 (sample_world five_docs steady) eq_refl).
  cbv zeta in P.
  destruct P as (sorted & _ & _ & Run & _ & Beyond & _).
  - lia.
  - unfold int64_bound. lia.
  - unfold int64_bound. lia.
  - destruct Beyond as [Empty _].
    + simpl. lia.
    + rewrite Run, Empty. reflexivity.
Defined.

(** C9 as stated fails on the first page of an empty selection: the
    offset 0 is at the total 0, the window is empty and [has_next] is false,
    but [has_prev] is false as well. *)
Lemma first_page_has_no_previous :
  ~ (forall (engine : regex_engine) (page limit : Z) (completed : option bool)
       (priority search : option string) (w : World),
        1 <= page ->
        exists (window : list Todo.t) (total : Z),
          fst (Main.get_todos engine page limit completed priority search w)
          = Ok {| Main.status_code := 200;
                  Main.content :=
                    Main.Page {| todos := window; total := total; page := page;
                                 limit := limit;
                                 has_next := (page - 1) * limit + limit <? total;
                                 has_prev := 1 <? page |} |}
          /\ (total <= (page - 1) * limit ->
              window = [] /\ ((page - 1) * limit + limit <? total) = false
              /\ (1 <? page) = true)).
Proof.
  intros Claim.
  destruct (Claim Pcre.engine 1 10 None None None (sample_world [] steady))
    as (window & total & Run & Beyond); [lia|].
  vm_compute in Run. injection Run as _ Total.
  destruct Beyond as (_ & _ & Prev); [rewrite <- Total; simpl; lia|].
  discriminate Prev.
Qed.

(** ** The routes of the REST front end *)

(** C4, on the code: [GET /todos/completed] and [GET /todos/pending] never
    reach their endpoints.  The route [/todos/{todo_id}] is registered before
    them and matches both paths, so the request is answered by [get_todo]
    with the identifier "completed" or "pending", which is not well formed:
    404 "Todo not found", in every world.  The two endpoints themselves
    would answer with the completed records by [updated_at] descending and
    with the pending records by [created_at] descending. *)
Theorem completed_and_pending_routes_are_shadowed (engine : regex_engine) (w : World) :
  Main.dispatch engine (Main.get "/todos/completed") w
  = (Ok (Main.HTTPException 404 (Main.Message "Todo not found")), w)
  /\ Main.dispatch engine (Main.get "/todos/pending") w
     = (Ok (Main.HTTPException 404 (Main.Message "Todo not found")), w)
  /\ Main.resolve Main.app (Main.get "/todos/completed") false
     = Main.Found Main.GetTodo ["completed"]
  /\ Main.resolve Main.app (Main.get "/todos/pending") false
     = Main.Found Main.GetTodo ["pending"]
  /\ Main.get_completed_todos engine w
     = (Ok {| Main.status_code := 200;
              Main.content :=
                Main.TodoList (sort_docs (in_order UpdatedAt (-1))
                                 (List.filter Todo.completed (collection w))) |}, w)
  /\ Main.get_pending_todos engine w
     = (Ok {| Main.status_code := 200;
              Main.content :=
                Main.TodoList (sort_docs (in_order CreatedAt (-1))
                                 (List.filter (fun d => negb (Todo.completed d))
                                    (collection w))) |}, w).
Proof.
  split; [reflexivity|].
  split; [reflexivity|].
  split; [reflexivity|].
  split; [reflexivity|].
  split.
  - unfold Main.get_completed_todos, TodoCRUD.get_completed_todos, bind, ret. simpl.
    unfold bind, ret. simpl.
    match goal with
    | |- context [List.filter ?f (collection w)] =>
        rewrite (filter_ext f Todo.completed)
          by (intro d; destruct (Todo.completed d); reflexivity)
    end.
    reflexivity.
  - unfold Main.get_pending_todos, TodoCRUD.get_pending_todos, bind, ret. simpl.
    unfold bind, ret. simpl.
    match goal with
    | |- context [List.filter ?f (collection w)] =>
        rewrite (filter_ext f (fun d => negb (Todo.completed d)))
          by (intro d; destruct (Todo.completed d); reflexivity)
    end.
    reflexivity.
Qed.

(** ** Search *)

Lemma eqb_ci_lower a b : Text.eqb_ci a b = true <-> Text.lower a = Text.lower b.
Proof. unfold Text.eqb_ci. apply Ascii.eqb_eq. Qed.

Lemma metachar_backslash c : Ascii.eqb c Pcre.backslash = true -> Pcre.metachar c = true.
Proof. intros H. apply Ascii.eqb_eq in H. subst c. reflexivity. Qed.

Lemma metachar_dot c : Ascii.eqb c "."%char = true -> Pcre.metachar c = true.
Proof. intros H. apply Ascii.eqb_eq in H. subst c. reflexivity. Qed.

(** A text without metacharacters is read as the sequence of its letters. *)
Lemma parse_plain (p : list ascii) :
  forallb (fun c => negb (Pcre.metachar c)) p = true ->
  Pcre.parse p = Some (map Pcre.Lit p).
Proof.
  induction p as [|c p IH]; simpl; [reflexivity|].
  intros H. apply andb_true_iff in H. destruct H as [Hc Hp].
  apply negb_true_iff in Hc.
  destruct (Ascii.eqb c Pcre.backslash) eqn:B.
  - apply metachar_backslash in B. congruence.
  - destruct (Ascii.eqb c "."%char) eqn:D.
    + apply metachar_dot in D. congruence.
    + rewrite Hc, (IH Hp). reflexivity.
Qed.

(** Letters matched without regard to case at the start of the subject:
    the folded subject starts with the folded letters. *)
Lemma match_here_letters (n h : list ascii) :
  Pcre.match_here true (map Pcre.Lit n) h = true
  <-> exists post, map Text.lower h = map Text.lower n ++ post.
Proof.
  revert h. induction n as [|a n IH]; intro h; simpl.
  - split; [intros _; eexists; reflexivity | reflexivity].
  - destruct h as [|c h]; simpl.
    + split; [discriminate | intros [post H]; discriminate H].
    + rewrite andb_true_iff, eqb_ci_lower, IH. split.
      * intros [E [post H]]. exists post. rewrite E, H. reflexivity.
      * intros [post H]. injection H as E H. split; [congruence | exists post; exact H].
Qed.

(** Letters searched without regard to case: the folded subject holds the
    folded letters somewhere. *)
Lemma search_letters (n h : list ascii) :
  Pcre.search true (map Pcre.Lit n) h = true
  <-> exists pre post, map Text.lower h = pre ++ map Text.lower n ++ post.
Proof.
  induction h as [|c h IH].
  - simpl Pcre.search. rewrite orb_false_r, match_here_letters. split.
    + intros [post H]. exists [], post. exact H.
    + intros (pre & post & H). destruct pre as [|x pre]; [|discriminate H].
      exists post. exact H.
  - simpl Pcre.search. rewrite orb_true_iff, match_here_letters, IH. split.
    + intros [[post H] | (pre & post & H)].
      * exists [], post. exact H.
      * exists (Text.lower c :: pre), post. simpl. rewrite H. reflexivity.
    + intros (pre & post & H). destruct pre as [|x pre].
      * left. exists post. exact H.
      * right. simpl in H. injection H as _ H. exists pre, post. exact H.
Qed.

Lemma engine_plain (search : string) :
  plain search = true ->
  Pcre.engine search "i"
  = Some (fun subject =>
            Pcre.search true (map Pcre.Lit (Text.chars search)) (Text.chars subject)).
Proof.
  intros P. unfold Pcre.engine. simpl Pcre.options.
  rewrite (parse_plain _ P). reflexivity.
Qed.

Lemma found_is_ci_substring (search subject : string) :
  Pcre.search true (map Pcre.Lit (Text.chars search)) (Text.chars subject) = true
  <-> Text.ci_substring search subject.
Proof. apply search_letters. Qed.

Lemma pcre_literal_caseless : literal_caseless Pcre.engine.
Proof.
  intros search P _. eexists. split; [apply engine_plain; exact P|].
  intros subject _. apply found_is_ci_substring.
Qed.

(** The filter that a plain, non-empty ASCII search text builds, with any
    engine that reads such a text letter by letter. *)
Lemma filter_with_literal_search (engine : regex_engine) completed priority
  (search : string) :
  literal_caseless engine ->
  search <> EmptyString ->
  plain search = true ->
  ascii_text search = true ->
  exists pr,
    Collection.filter_pred engine
      (TodoCRUD.build_filter completed priority (Some search)) = Some pr
    /\ forall d, ascii_record d = true ->
         (pr d = true <-> constrains completed priority d = true /\ mentions search d).
Proof.
  intros Reads NonEmpty P A.
  destruct (Reads search P A) as (found & Engine & Finds).
  assert (T : TodoCRUD.truthy search = true).
  { unfold TodoCRUD.truthy. destruct (String.eqb search EmptyString) eqn:E;
      [|reflexivity].
    apply String.eqb_eq in E. contradiction. }
  assert (Text_ok : forall d, ascii_record d = true ->
    ((match Todo.description d with
      | Some s => found s
      | None => false
      end = true)
     <-> exists text, Todo.description d = Some text /\ Text.ci_substring search text)
    /\ (found (Todo.title d) = true <-> Text.ci_substring search (Todo.title d))).
  { intros d Hd. unfold ascii_record in Hd. apply andb_true_iff in Hd.
    destruct Hd as [Ht Hdesc]. split; [|apply Finds; exact Ht].
    destruct (Todo.description d) as [s|].
    - simpl in Hdesc. rewrite (Finds s Hdesc). split.
      + intro H. exists s. split; [reflexivity | exact H].
      + intros (text & E & H). injection E as <-. exact H.
    - split; [discriminate | intros (text & E & _); discriminate E]. }
  unfold TodoCRUD.build_filter. rewrite T.
  destruct completed as [b|], priority as [p|];
    unfold TodoCRUD.truthy, constrains;
    try destruct (String.eqb p EmptyString);
    simpl; unfold Collection.clause_pred; simpl; rewrite Engine;
    eexists; (split; [reflexivity|]); intros d Hd;
    destruct (Text_ok d Hd) as [Desc Title]; unfold mentions; simpl;
    rewrite ?andb_true_iff, ?orb_true_iff, ?orb_false_r, Title, Desc;
    intuition discriminate.
Qed.

(** C1 (as amended). The search text is handed to the store as a
    case-insensitive regular expression on the title and on the description,
    or-combined.  When it is not empty, holds no metacharacter, and both it and
    the stored titles and descriptions are ASCII text, List and Count select
    exactly the records (among those the other filters keep) whose title or
    description contains it as a case-insensitive substring; this holds with
    every engine that reads such a text letter by letter.  An empty search
    text builds the filter of an absent one. *)
Theorem plain_search_is_ci_substring (engine : regex_engine) (completed : option bool)
  (priority : option string) (search : string) (w : World) :
  literal_caseless engine ->
  search <> EmptyString ->
  plain search = true ->
  ascii_text search = true ->
  ascii_store w ->
  (exists docs : list Todo.t,
      TodoCRUD.get_todos engine 0 (Z.of_nat (List.length (collection w)))
        completed priority (Some search) w = (Ok docs, w)
      /\ TodoCRUD.get_todos_count engine completed priority (Some search) w
         = (Ok (Z.of_nat (List.length docs)), w)
      /\ forall d, In d docs
                   <-> In d (collection w)
                       /\ constrains completed priority d = true
                       /\ mentions search d)
  /\ TodoCRUD.build_filter completed priority (Some EmptyString)
     = TodoCRUD.build_filter completed priority None.
Proof.
  intros Reads NonEmpty P A Store. split.
  - destruct (filter_with_literal_search engine completed priority search
                Reads NonEmpty P A) as (pr & F & Sel).
    exists (newest_first (List.filter pr (collection w))).
    split; [|split].
    + rewrite (get_todos_run engine 0 _ completed priority (Some search) pr w F)
        by lia.
      rewrite Nat2Z.id. cbn [Z.to_nat skipn].
      rewrite firstn_whole; [reflexivity|].
      unfold newest_first. rewrite sort_docs_length. apply filter_length_le.
    + rewrite (get_todos_count_run engine completed priority (Some search) pr w F).
      unfold newest_first. rewrite sort_docs_length. reflexivity.
    + intro d. unfold newest_first. rewrite sort_docs_in, filter_In. split.
      * intros [Hd Hp]. split; [exact Hd|]. apply (Sel d (Store d Hd)). exact Hp.
      * intros [Hd Hm]. split; [exact Hd|]. apply (Sel d (Store d Hd)). exact Hm.
  - unfold TodoCRUD.build_filter. reflexivity.
Qed.

(** The scenario of the specification: "milk" finds the record titled
    "Buy Milk" and does not find the one titled "Buy eggs". *)
Lemma plain_search_is_ci_substring_witness :
  exists docs : list Todo.t,
    fst (TodoCRUD.get_todos Pcre.engine 0 5 None None (Some "milk")
           (sample_world five_docs steady)) = Ok docs
    /\ In (sample_doc 1 "Buy Milk" None false "high" 1000 1000) docs
    /\ ~ In (sample_doc 2 "Buy eggs" (Some "a dozen") false "medium" 2000 2000) docs.
Proof.
  destruct (plain_search_is_ci_substring Pcre.engine None None "milk"
              (sample_world five_docs steady))
    as [(docs & Run & _ & Sel) _].
  - exact pcre_literal_caseless.
  - discriminate.
  - reflexivity.
  - reflexivity.
  - intros d Hd. simpl in Hd.
    repeat destruct Hd as [<- | Hd]; try reflexivity. destruct Hd.
  - exists docs. split; [|split].
    + change (Z.of_nat (List.length (collection (sample_world five_docs steady))))
        with 5 in Run.
      rewrite Run. reflexivity.
    + apply Sel. split; [left; reflexivity|]. split; [reflexivity|].
      left. apply found_is_ci_substring. reflexivity.
    + intros Listed. apply Sel in Listed.
      destruct Listed as (_ & _ & [M | (text & E & M)]).
      * apply found_is_ci_substring in M. discriminate M.
      * injection E as <-. apply found_is_ci_substring in M. discriminate M.
Defined.

(** C1 as stated fails: the search text "a.c" finds the record titled
    "abc", whose title does not contain "a.c" and which has no description;
    the dot is read as the wildcard of the pattern syntax. *)
Lemma search_text_is_a_pattern :
  ~ (forall (search : string) (w : World) (docs : list Todo.t),
        search <> EmptyString ->
        fst (TodoCRUD.get_todos Pcre.engine 0 (Z.of_nat (List.length (collection w)))
               None None (Some search) w) = Ok docs ->
        forall d, In d docs <-> In d (collection w) /\ mentions search d).
Proof.
  intros Claim.
  assert (NonEmpty : "a.c" <> EmptyString) by discriminate.
  assert (Run :
    fst (TodoCRUD.get_todos Pcre.engine 0
           (Z.of_nat (List.length (collection (sample_world five_docs steady))))
           None None (Some "a.c") (sample_world five_docs steady))
    = Ok [sample_doc 3 "abc" None true "low" 3000 9000])
    by (vm_compute; reflexivity).
  destruct (Claim _ _ _ NonEmpty Run (sample_doc 3 "abc" None true "low" 3000 9000))
    as [Listed _].
  destruct (Listed (or_introl eq_refl)) as [_ [M | (text & E & _)]].
  - apply found_is_ci_substring in M. vm_compute in M. discriminate M.
  - discriminate E.
Qed.

(** * Further properties of the data-access layer *)

(** ** Delete *)

Lemma remove_first_pointwise (p q : Todo.t -> bool) l :
  (forall x, p x = q x) -> remove_first p l = remove_first q l.
Proof.
  intros E. induction l as [|x l IH]; simpl; [reflexivity|].
  rewrite E, IH. reflexivity.
Qed.

Lemma existsb_pointwise {A} (p q : A -> bool) (l : list A) :
  (forall x, p x = q x) -> existsb p l = existsb q l.
Proof.
  intros E. induction l as [|x l IH]; simpl; [reflexivity|].
  rewrite E, IH. reflexivity.
Qed.

Lemma find_some_existsb {A} (p : A -> bool) (l : list A) (x : A) :
  List.find p l = Some x -> existsb p l = true.
Proof.
  induction l as [|y l IH]; simpl; [discriminate|].
  destruct (p y); [reflexivity | exact IH].
Qed.

Lemma delete_one_by_id (engine : regex_engine) oid w :
  Collection.delete_one engine [Id oid] w
  = match lookup oid w with
    | Some _ => (Ok {| deleted_count := 1 |},
                 with_collection w (remove_first (has_id oid) (collection w)))
    | None => (Ok {| deleted_count := 0 |}, w)
    end.
Proof.
  destruct (lookup oid w) as [d|] eqn:L.
  - unfold Collection.delete_one. simpl.
    rewrite (existsb_pointwise _ (has_id oid)) by (intro x; apply andb_true_r).
    rewrite (find_some_existsb (has_id oid) (collection w) d L).
    rewrite (remove_first_pointwise _ (has_id oid)) by (intro x; apply andb_true_r).
    reflexivity.
  - apply delete_one_absent. exact L.
Qed.

Lemma remove_first_length_found p l d :
  List.find p l = Some d -> List.length l = S (List.length (remove_first p l)).
Proof.
  induction l as [|x l IH]; simpl; [discriminate|].
  destruct (p x); [reflexivity|].
  intros H. simpl. rewrite <- (IH H). reflexivity.
Qed.

Lemma find_remove_first_other oid other l :
  other <> oid ->
  List.find (has_id other) (remove_first (has_id oid) l) = List.find (has_id other) l.
Proof.
  intros Ne. induction l as [|x l IH]; simpl; [reflexivity|].
  destruct (has_id oid x) eqn:Hx; simpl.
  - destruct (has_id other x) eqn:Ho; [|reflexivity].
    unfold has_id in *. apply N.eqb_eq in Hx, Ho. congruence.
  - rewrite IH. reflexivity.
Qed.

Lemma find_absent_id oid l :
  ~ In oid (map Todo._id l) -> List.find (has_id oid) l = None.
Proof.
  induction l as [|x l IH]; simpl; [reflexivity|].
  intros Out. destruct (has_id oid x) eqn:Hx.
  - unfold has_id in Hx. apply N.eqb_eq in Hx. tauto.
  - apply IH. tauto.
Qed.

Lemma find_remove_first_same oid l :
  NoDup (map Todo._id l) ->
  List.find (has_id oid) (remove_first (has_id oid) l) = None.
Proof.
  induction l as [|x l IH]; simpl; [reflexivity|].
  intros U. inversion U as [|? ? Out U']; subst.
  destruct (has_id oid x) eqn:Hx.
  - apply find_absent_id. unfold has_id in Hx. apply N.eqb_eq in Hx.
    rewrite <- Hx. exact Out.
  - simpl. rewrite Hx. apply IH. exact U'.
Qed.

(** X1. Delete of a stored record answers true and takes exactly that
    record out: the collection is one record shorter and every other
    identifier finds what it found before.  When identifiers are unique the
    identifier finds nothing afterwards and a second Delete answers false and
    changes nothing. *)
Theorem delete_removes_one_record (engine : regex_engine) (todo_id : string)
  (doc : Todo.t) (w : World) :
  ObjectId.is_valid todo_id = true ->
  lookup (ObjectId.of_str todo_id) w = Some doc ->
  unique_ids w ->
  exists w' : World,
    TodoCRUD.delete_todo engine todo_id w = (Ok true, w')
    /\ List.length (collection w) = S (List.length (collection w'))
    /\ (forall other, other <> ObjectId.of_str todo_id -> lookup other w' = lookup other w)
    /\ lookup (ObjectId.of_str todo_id) w' = None
    /\ TodoCRUD.delete_todo engine todo_id w' = (Ok false, w').
Proof.
  intros Good Stored Unique.
  apply canonical_is_accepted in Good.
  set (oid := ObjectId.of_str todo_id) in *.
  set (w' := with_collection w (remove_first (has_id oid) (collection w))).
  assert (Gone : lookup oid w' = None)
    by (apply find_remove_first_same; exact Unique).
  exists w'. split; [|split; [|split; [|split]]].
  - unfold TodoCRUD.delete_todo. rewrite Good. cbn [negb]. unfold bind.
    fold oid. rewrite delete_one_by_id, Stored. reflexivity.
  - apply (remove_first_length_found _ _ doc Stored).
  - intros other Ne. apply find_remove_first_other. exact Ne.
  - exact Gone.
  - unfold TodoCRUD.delete_todo. rewrite Good. cbn [negb]. unfold bind.
    fold oid. rewrite delete_one_by_id, Gone. reflexivity.
Qed.

Lemma five_docs_unique : unique_ids (sample_world five_docs steady).
Proof.
  unfold unique_ids. simpl.
  repeat (constructor; [simpl; intuition discriminate|]). constructor.
Qed.

Lemma delete_removes_one_record_witness :
  exists w' : World,
    TodoCRUD.delete_todo Pcre.engine "000000000000000000000002"
      (sample_world five_docs steady) = (Ok true, w')
    /\ TodoCRUD.delete_todo Pcre.engine "000000000000000000000002" w' = (Ok false, w').
Proof.
  destruct (delete_removes_one_record Pcre.engine "000000000000000000000002"
              (sample_doc 2 "Buy eggs" (Some "a dozen") false "medium" 2000 2000)
              (sample_world five_docs steady) eq_refl eq_refl five_docs_unique)
    as (w' & First & _ & _ & _ & Second).
  exists w'. split; [exact First | exact Second].
Defined.

(** ** What the four writing operations do to the world *)

Lemma create_todo_run (engine : regex_engine) (todo : TodoCreate.t) (w : World) :
  let oid := (oid_source w (oid_draws w) mod ObjectId.modulus)%N in
  let doc := stored oid {| fields := todo;
                           new_created_at := clock w (clock_reads w);
                           new_updated_at := clock w (S (clock_reads w)) |} in
  TodoCRUD.create_todo engine todo w
  = if existsb (has_id oid) (collection w)
    then (Raise DuplicateKeyError, after_create_reads w)
    else (Ok doc, with_collection (after_create_reads w) (collection w ++ [doc])).
Proof.
  intros oid doc.
  unfold TodoCRUD.create_todo, Collection.insert_one, new_object_id.
  unfold bind at 1. unfold utcnow at 1.
  unfold bind at 1. unfold utcnow at 1. cbn [clock clock_reads].
  unfold bind at 1. unfold bind at 1. cbn [oid_source oid_draws collection].
  fold oid. fold (has_id oid).
  change (existsb (fun d => ObjectId.eqb (Todo._id d) oid) (collection w))
    with (existsb (has_id oid) (collection w)).
  destruct (existsb (has_id oid) (collection w)) eqn:Taken.
  - reflexivity.
  - unfold bind. rewrite find_one_by_id.
    unfold lookup. cbn [with_collection collection]. fold doc.
    rewrite (find_after (has_id oid) (collection w) doc Taken)
      by (unfold has_id; simpl; apply N.eqb_refl).
    reflexivity.
Qed.

Lemma update_todo_run (engine : regex_engine) todo_id u doc w a rest :
  ObjectId.bson_is_valid todo_id = true ->
  lookup (ObjectId.of_str todo_id) w = Some doc ->
  TodoCRUD.present_fields u = a :: rest ->
  let full := (a :: rest) ++ [SetUpdatedAt (clock w (clock_reads w))] in
  TodoCRUD.update_todo engine todo_id u w
  = if Todo.eq_dec (apply_set full doc) doc
    then (Ok None, tick w)
    else (Ok (Some (apply_set full doc)),
          with_collection (tick w)
            (replace_first (has_id (ObjectId.of_str todo_id)) (apply_set full)
               (collection w))).
Proof.
  intros Good Stored Present full.
  unfold TodoCRUD.update_todo. rewrite Good, Present. cbn [negb].
  remember (a :: rest) as present.
  unfold bind, utcnow. rewrite update_one_by_id.
  unfold lookup in *. cbn [collection]. rewrite Stored. fold full. fold (tick w).
  destruct (Todo.eq_dec (apply_set full doc) doc) as [Same|Changed];
    cbn [modified_count Z.eqb negb].
  - reflexivity.
  - rewrite get_todo_valid by exact Good.
    unfold lookup. cbn [with_collection collection].
    rewrite (find_replace_first_same _ (apply_set full) _ doc Stored)
      by (intro x; apply apply_set_id).
    reflexivity.
Qed.

Lemma update_todo_missing (engine : regex_engine) todo_id u w a rest :
  ObjectId.bson_is_valid todo_id = true ->
  lookup (ObjectId.of_str todo_id) w = None ->
  TodoCRUD.present_fields u = a :: rest ->
  TodoCRUD.update_todo engine todo_id u w = (Ok None, tick w).
Proof.
  intros Good Absent Present.
  unfold TodoCRUD.update_todo. rewrite Good, Present. cbn [negb].
  unfold bind, utcnow. rewrite update_one_by_id.
  unfold lookup in *. cbn [collection]. rewrite Absent. reflexivity.
Qed.

Lemma update_todo_rewrites (engine : regex_engine) todo_id u w :
  rewritten (ObjectId.of_str todo_id) w (snd (TodoCRUD.update_todo engine todo_id u w)).
Proof.
  destruct (ObjectId.bson_is_valid todo_id) eqn:Good.
  - destruct (TodoCRUD.present_fields u) as [|a rest] eqn:Present.
    + assert (Run : TodoCRUD.update_todo engine todo_id u w
                    = (Ok (lookup (ObjectId.of_str todo_id) w), w)).
      { unfold TodoCRUD.update_todo. rewrite Good, Present. cbn [negb].
        apply get_todo_valid. exact Good. }
      rewrite Run. split; [reflexivity|]. left. split; reflexivity.
    + destruct (lookup (ObjectId.of_str todo_id) w) as [doc|] eqn:Stored.
      * rewrite (update_todo_run engine todo_id u doc w a rest Good Stored Present).
        destruct (Todo.eq_dec _ doc).
        -- split; [reflexivity|]. right. split; [reflexivity|]. left. reflexivity.
        -- split; [reflexivity|]. right. split; [reflexivity|]. right.
           exists (a :: rest). reflexivity.
      * rewrite (update_todo_missing engine todo_id u w a rest Good Stored Present).
        split; [reflexivity|]. right. split; [reflexivity|]. left. reflexivity.
  - assert (Run : TodoCRUD.update_todo engine todo_id u w = (Ok None, w))
      by (unfold TodoCRUD.update_todo; rewrite Good; reflexivity).
    rewrite Run. split; [reflexivity|]. left. split; reflexivity.
Qed.

Lemma toggle_todo_rewrites (engine : regex_engine) todo_id w :
  rewritten (ObjectId.of_str todo_id) w (snd (TodoCRUD.toggle_todo engine todo_id w)).
Proof.
  destruct (ObjectId.bson_is_valid todo_id) eqn:Good.
  - destruct (lookup (ObjectId.of_str todo_id) w) as [doc|] eqn:Stored.
    + destruct (toggle_step engine todo_id doc w Good Stored) as [Run _].
      rewrite Run. split; [reflexivity|]. right. split; [reflexivity|]. right.
      exists [SetCompleted (negb (Todo.completed doc))]. reflexivity.
    + assert (Run : TodoCRUD.toggle_todo engine todo_id w = (Ok None, w)).
      { unfold TodoCRUD.toggle_todo. rewrite Good. cbn [negb]. unfold bind.
        rewrite get_todo_valid, Stored by exact Good. reflexivity. }
      rewrite Run. split; [reflexivity|]. left. split; reflexivity.
  - assert (Run : TodoCRUD.toggle_todo engine todo_id w = (Ok None, w))
      by (unfold TodoCRUD.toggle_todo; rewrite Good; reflexivity).
    rewrite Run. split; [reflexivity|]. left. split; reflexivity.
Qed.

Lemma delete_todo_world (engine : regex_engine) todo_id w :
  snd (TodoCRUD.delete_todo engine todo_id w) = w
  \/ snd (TodoCRUD.delete_todo engine todo_id w)
     = with_collection w (remove_first (has_id (ObjectId.of_str todo_id)) (collection w)).
Proof.
  unfold TodoCRUD.delete_todo.
  destruct (ObjectId.bson_is_valid todo_id); cbn [negb].
  - unfold bind. rewrite delete_one_by_id.
    destruct (lookup (ObjectId.of_str todo_id) w); simpl; [right | left]; reflexivity.
  - simpl. left. reflexivity.
Qed.

Lemma map_id_replace_first p f l :
  (forall x, Todo._id (f x) = Todo._id x) ->
  map Todo._id (replace_first p f l) = map Todo._id l.
Proof.
  intros Hf. induction l as [|x l IH]; simpl; [reflexivity|].
  destruct (p x); simpl; [rewrite Hf | rewrite IH]; reflexivity.
Qed.

Lemma in_remove_first p (l : list Todo.t) d : In d (remove_first p l) -> In d l.
Proof.
  induction l as [|x l IH]; simpl; [tauto|].
  destruct (p x); simpl; tauto.
Qed.

Lemma unique_after_remove_first p l :
  NoDup (map Todo._id l) -> NoDup (map Todo._id (remove_first p l)).
Proof.
  induction l as [|x l IH]; simpl; [tauto|].
  intros U. inversion U as [|? ? Out U']; subst.
  destruct (p x); [exact U'|].
  simpl. constructor; [|apply IH; exact U'].
  intros Inside. apply Out.
  apply in_map_iff in Inside. destruct Inside as (d & E & Hd).
  apply in_map_iff. exists d. split; [exact E|]. apply (in_remove_first p l d Hd).
Qed.

Lemma has_id_in oid l :
  existsb (has_id oid) l = false -> ~ In oid (map Todo._id l).
Proof.
  induction l as [|x l IH]; simpl; [tauto|].
  intros H. apply orb_false_iff in H. destruct H as [Hx Hl].
  intros [E | Inside].
  - unfold has_id in Hx. rewrite E, N.eqb_refl in Hx. discriminate Hx.
  - exact (IH Hl Inside).
Qed.

Lemma unique_rewritten oid w w' :
  rewritten oid w w' -> unique_ids w -> unique_ids w'.
Proof.
  unfold rewritten, unique_ids.
  intros (_ & [[_ Same] | [_ [Same | (l & Replaced)]]]) U.
  - rewrite Same. exact U.
  - rewrite Same. exact U.
  - rewrite Replaced, map_id_replace_first; [exact U|].
    intro x. apply apply_set_id.
Qed.

Lemma nodup_snoc {A} (l : list A) (x : A) :
  NoDup l -> ~ In x l -> NoDup (l ++ [x]).
Proof.
  induction l as [|y l IH]; simpl; intros U Out.
  - constructor; [tauto | constructor].
  - inversion U as [|? ? Fresh U']; subst. constructor.
    + rewrite in_app_iff. simpl. intros [Inside | [E | []]]; [tauto|].
      apply Out. left. symmetry. exact E.
    + apply IH; [exact U' | tauto].
Qed.

(** X2. The four writing operations keep identifiers unique: Create
    never stores a second record under an identifier that is taken (the
    insertion is refused instead), Update and Toggle never change an
    identifier, Delete only removes. *)
Theorem writes_keep_ids_unique (engine : regex_engine) (todo : TodoCreate.t)
  (todo_id : string) (u : TodoUpdate.t) (w : World) :
  unique_ids w ->
  unique_ids (snd (TodoCRUD.create_todo engine todo w))
  /\ unique_ids (snd (TodoCRUD.update_todo engine todo_id u w))
  /\ unique_ids (snd (TodoCRUD.toggle_todo engine todo_id w))
  /\ unique_ids (snd (TodoCRUD.delete_todo engine todo_id w)).
Proof.
  intros U. split; [|split; [|split]].
  - rewrite create_todo_run.
    destruct (existsb (has_id _) (collection w)) eqn:Taken.
    + exact U.
    + unfold unique_ids in *. cbn [snd with_collection collection].
      rewrite map_app. simpl.
      apply nodup_snoc; [exact U | apply has_id_in; exact Taken].
  - exact (unique_rewritten _ _ _ (update_todo_rewrites engine todo_id u w) U).
  - exact (unique_rewritten _ _ _ (toggle_todo_rewrites engine todo_id w) U).
  - destruct (delete_todo_world engine todo_id w) as [-> | ->]; [exact U|].
    unfold unique_ids. cbn [with_collection collection].
    apply unique_after_remove_first. exact U.
Qed.

Lemma writes_keep_ids_unique_witness :
  unique_ids (snd (TodoCRUD.create_todo Pcre.engine milk (sample_world five_docs steady))).
Proof.
  apply (writes_keep_ids_unique Pcre.engine milk "000000000000000000000001" no_fields
           (sample_world five_docs steady)).
  unfold unique_ids. simpl.
  repeat (constructor; [simpl; intuition discriminate|]). constructor.
Defined.

(** ** Time stamps *)

Lemma bson_datetime_monotone a b : a <= b -> bson_datetime a <= bson_datetime b.
Proof.
  intros H. unfold bson_datetime.
  apply Z.mul_le_mono_nonneg_l; [lia|]. apply Z.div_le_mono; lia.
Qed.

Lemma apply_assignment_created d a :
  Todo.created_at (apply_assignment d a) = Todo.created_at d.
Proof. destruct a; reflexivity. Qed.

Lemma apply_set_created update_dict d :
  Todo.created_at (apply_set update_dict d) = Todo.created_at d.
Proof.
  unfold apply_set. revert d.
  induction update_dict as [|a l IH]; intro d; simpl; [reflexivity|].
  rewrite IH. apply apply_assignment_created.
Qed.

Lemma in_replace_first p f (l : list Todo.t) d :
  In d (replace_first p f l) -> In d l \/ exists d0, In d0 l /\ d = f d0.
Proof.
  induction l as [|x l IH]; simpl; [tauto|].
  destruct (p x); simpl.
  - intros [E | Inside]; [|tauto]. right. exists x. split; [tauto | congruence].
  - intros [E | Inside]; [tauto|].
    destruct (IH Inside) as [Old | (d0 & Hd0 & E)]; [tauto|].
    right. exists d0. tauto.
Qed.

Lemma stamps_rewritten oid w w' :
  monotone (clock w) -> rewritten oid w w' -> stamps_in_order w -> stamps_in_order w'.
Proof.
  unfold rewritten, stamps_in_order.
  intros Mono (Clock & Shape) Inv d Hd. rewrite Clock.
  assert (Next : bson_datetime (clock w (clock_reads w))
                 <= bson_datetime (clock w (S (clock_reads w))))
    by (apply bson_datetime_monotone, Mono; lia).
  destruct Shape as [[Reads Same] | [Reads [Same | (l & Replaced)]]]; rewrite Reads.
  - rewrite Same in Hd. exact (Inv d Hd).
  - rewrite Same in Hd. destruct (Inv d Hd) as [A B]. split; lia.
  - rewrite Replaced in Hd.
    destruct (in_replace_first _ _ _ _ Hd) as [Old | (d0 & Hd0 & E)].
    + destruct (Inv d Old) as [A B]. split; lia.
    + destruct (Inv d0 Hd0) as [A B]. subst d.
      rewrite apply_set_last, apply_assignment_created, apply_set_created.
      simpl. split; lia.
Qed.

(** X3. As long as the clock never runs backwards, every writing
    operation keeps [created_at <= updated_at] on every stored record: Create
    stamps a new record with two successive readings, Update and Toggle
    restamp [updated_at] with a reading that is not older than any stored
    [created_at] and never touch [created_at]. *)
Theorem writes_keep_stamps_in_order (engine : regex_engine) (todo : TodoCreate.t)
  (todo_id : string) (u : TodoUpdate.t) (w : World) :
  monotone (clock w) ->
  stamps_in_order w ->
  stamps_in_order (snd (TodoCRUD.create_todo engine todo w))
  /\ stamps_in_order (snd (TodoCRUD.update_todo engine todo_id u w))
  /\ stamps_in_order (snd (TodoCRUD.toggle_todo engine todo_id w))
  /\ stamps_in_order (snd (TodoCRUD.delete_todo engine todo_id w)).
Proof.
  intros Mono Inv. split; [|split; [|split]].
  - assert (Two : bson_datetime (clock w (clock_reads w))
                  <= bson_datetime (clock w (S (S (clock_reads w)))))
      by (apply bson_datetime_monotone, Mono; lia).
    assert (One : bson_datetime (clock w (clock_reads w))
                  <= bson_datetime (clock w (S (clock_reads w))))
      by (apply bson_datetime_monotone, Mono; lia).
    rewrite create_todo_run.
    destruct (existsb (has_id _) (collection w)).
    + intros d Hd. cbn [snd after_create_reads collection clock clock_reads] in *.
      destruct (Inv d Hd) as [A B]. split; lia.
    + intros d Hd.
      cbn [snd with_collection after_create_reads collection clock clock_reads] in *.
      apply in_app_iff in Hd. destruct Hd as [Old | [New | []]].
      * destruct (Inv d Old) as [A B]. split; lia.
      * subst d. simpl. split; lia.
  - exact (stamps_rewritten _ _ _ Mono (update_todo_rewrites engine todo_id u w) Inv).
  - exact (stamps_rewritten _ _ _ Mono (toggle_todo_rewrites engine todo_id w) Inv).
  - destruct (delete_todo_world engine todo_id w) as [-> | ->]; [exact Inv|].
    intros d Hd. cbn [with_collection collection clock clock_reads] in *.
    apply in_remove_first in Hd. exact (Inv d Hd).
Qed.

Lemma writes_keep_stamps_in_order_witness :
  stamps_in_order
    (snd (TodoCRUD.toggle_todo Pcre.engine "000000000000000000000003"
            (sample_world five_docs steady))).
Proof.
  apply (writes_keep_stamps_in_order Pcre.engine milk "000000000000000000000003"
           no_fields (sample_world five_docs steady)).
  - intros i j Le. simpl. unfold steady. lia.
  - intros d Hd. simpl in Hd. unfold bson_datetime, steady. simpl.
    repeat destruct Hd as [<- | Hd]; simpl; try lia.
Defined.

(** ** Update as a field-level patch *)

Lemma apply_set_patched u doc now :
  apply_set (TodoCRUD.present_fields u ++ [SetUpdatedAt now]) doc = patched u doc now.
Proof.
  destruct u as [[t|] [d|] [c|] [p|] [dd|] [tg|]]; destruct doc; reflexivity.
Qed.

(** X4. Update of a stored record with at least one present field writes a
    field-level patch: every present field replaces the stored value, every
    absent field, the identifier and [created_at] stay, [updated_at] is the
    clock's reading; no other record changes.  The patched record is returned
    when the write changed the document, and the absent result when it did
    not. *)
Theorem update_is_a_field_patch (engine : regex_engine) (todo_id : string)
  (u : TodoUpdate.t) (doc : Todo.t) (w : World) :
  ObjectId.is_valid todo_id = true ->
  lookup (ObjectId.of_str todo_id) w = Some doc ->
  TodoCRUD.present_fields u <> [] ->
  let next := patched u doc (clock w (clock_reads w)) in
  exists w' : World,
    TodoCRUD.update_todo engine todo_id u w
    = (Ok (if Todo.eq_dec next doc then None else Some next), w')
    /\ lookup (ObjectId.of_str todo_id) w' = Some next
    /\ (forall other, other <> ObjectId.of_str todo_id -> lookup other w' = lookup other w)
    /\ List.length (collection w') = List.length (collection w).
Proof.
  intros Good Stored Present next.
  apply canonical_is_accepted in Good.
  destruct (TodoCRUD.present_fields u) as [|a rest] eqn:Fields; [congruence|].
  pose proof (update_todo_run engine todo_id u doc w a rest Good Stored Fields) as Run.
  cbv zeta in Run. rewrite <- Fields, apply_set_patched in Run. fold next in Run.
  rewrite Run.
  destruct (Todo.eq_dec next doc) as [Same|Changed].
  - exists (tick w). split; [reflexivity|]. split; [|split].
    + rewrite Same. exact Stored.
    + intros other _. reflexivity.
    + reflexivity.
  - eexists. split; [reflexivity|]. split; [|split].
    + unfold lookup in *. cbn [with_collection collection].
      rewrite (find_replace_first_same _ _ _ doc Stored)
        by (intro x; apply apply_set_id).
      rewrite apply_set_patched. reflexivity.
    + intros other Ne. unfold lookup. cbn [with_collection collection].
      apply find_replace_first_other; [exact Ne|].
      intro x. apply apply_set_id.
    + cbn [with_collection collection]. apply replace_first_length.
Qed.

Lemma update_is_a_field_patch_witness :
  exists w' : World,
    TodoCRUD.update_todo Pcre.engine "000000000000000000000002"
      (TodoUpdate.mk None None (Some true) (Some "high") None None)
      (sample_world five_docs steady)
    = (Ok (Some (Todo.mk 2%N "Buy eggs" (Some "a dozen") true "high" None [] 2000
                   7000000)), w').
Proof.
  destruct (update_is_a_field_patch Pcre.engine "000000000000000000000002"
              (TodoUpdate.mk None None (Some true) (Some "high") None None)
              (sample_doc 2 "Buy eggs" (Some "a dozen") false "medium" 2000 2000)
              (sample_world five_docs steady) eq_refl eq_refl)
    as (w' & Run & _).
  - discriminate.
  - exists w'. exact Run.
Defined.

(** X5. When every value sent equals the stored one and the stored
    [updated_at] already is the millisecond of the clock's reading, the write
    changes nothing, Update answers the absent result for a record that
    exists, and the REST route answers 404 "Todo not found". *)
Theorem unchanged_update_is_answered_not_found (engine : regex_engine)
  (todo_id : string) (u : TodoUpdate.t) (doc : Todo.t) (w : World) :
  ObjectId.is_valid todo_id = true ->
  lookup (ObjectId.of_str todo_id) w = Some doc ->
  TodoCRUD.present_fields u <> [] ->
  patched u doc (clock w (clock_reads w)) = doc ->
  TodoCRUD.update_todo engine todo_id u w = (Ok None, tick w)
  /\ Main.update_todo engine todo_id (Some u) w
     = (Ok (Main.HTTPException 404 (Main.Message "Todo not found")), tick w)
  /\ lookup (ObjectId.of_str todo_id) (tick w) = Some doc.
Proof.
  intros Good Stored Present Same.
  apply canonical_is_accepted in Good.
  destruct (TodoCRUD.present_fields u) as [|a rest] eqn:Fields; [congruence|].
  pose proof (update_todo_run engine todo_id u doc w a rest Good Stored Fields) as Run.
  cbv zeta in Run. rewrite <- Fields, apply_set_patched, Same in Run.
  destruct (Todo.eq_dec doc doc) as [_|Different]; [|congruence].
  split; [exact Run|]. split; [|exact Stored].
  unfold Main.update_todo, bind. rewrite Run. reflexivity.
Qed.

Lemma unchanged_update_is_answered_not_found_witness :
  Main.update_todo Pcre.engine "000000000000000000000006"
    (Some (TodoUpdate.mk (Some "Water plants") None None None None None))
    (sample_world settled_docs steady)
  = (Ok (Main.HTTPException 404 (Main.Message "Todo not found")),
     tick (sample_world settled_docs steady)).
Proof.
  apply (unchanged_update_is_answered_not_found Pcre.engine "000000000000000000000006"
           (TodoUpdate.mk (Some "Water plants") None None None None None)
           (sample_doc 6 "Water plants" None false "low" 6000000 7000000)
           (sample_world settled_docs steady)).
  - reflexivity.
  - reflexivity.
  - discriminate.
  - reflexivity.
Defined.

(** X6. No update request clears an optional field: whatever is sent, a
    stored description and a stored due date are still present afterwards (a
    request can replace them, and an absent field leaves them), and the
    identifier and [created_at] are the stored ones. *)
Theorem update_never_clears_a_field (engine : regex_engine) (todo_id : string)
  (u : TodoUpdate.t) (doc : Todo.t) (w : World) :
  ObjectId.is_valid todo_id = true ->
  lookup (ObjectId.of_str todo_id) w = Some doc ->
  exists next : Todo.t,
    lookup (ObjectId.of_str todo_id) (snd (TodoCRUD.update_todo engine todo_id u w))
    = Some next
    /\ Todo._id next = Todo._id doc
    /\ Todo.created_at next = Todo.created_at doc
    /\ (Todo.description doc <> None -> Todo.description next <> None)
    /\ (Todo.due_date doc <> None -> Todo.due_date next <> None).
Proof.
  intros Good Stored.
  apply canonical_is_accepted in Good.
  destruct (TodoCRUD.present_fields u) as [|a rest] eqn:Fields.
  - exists doc.
    assert (Run : TodoCRUD.update_todo engine todo_id u w = (Ok (Some doc), w)).
    { unfold TodoCRUD.update_todo. rewrite Good, Fields. cbn [negb].
      rewrite get_todo_valid by exact Good. rewrite Stored. reflexivity. }
    rewrite Run. repeat split; try reflexivity; tauto.
  - exists (patched u doc (clock w (clock_reads w))).
    pose proof (update_todo_run engine todo_id u doc w a rest Good Stored Fields) as Run.
    cbv zeta in Run. rewrite <- Fields, apply_set_patched in Run.
    rewrite Run. split; [|repeat split].
    + destruct (Todo.eq_dec _ doc) as [Same|Changed].
      * rewrite Same. exact Stored.
      * unfold lookup in *. cbn [snd with_collection collection].
        rewrite (find_replace_first_same _ _ _ doc Stored)
          by (intro x; apply apply_set_id).
        rewrite apply_set_patched. reflexivity.
    + simpl. destruct (TodoUpdate.description u); [discriminate | tauto].
    + simpl. destruct (TodoUpdate.due_date u); [discriminate | tauto].
Qed.

Lemma update_never_clears_a_field_witness :
  exists next : Todo.t,
    lookup 2%N
      (snd (TodoCRUD.update_todo Pcre.engine "000000000000000000000002"
              (TodoUpdate.mk (Some "Eggs") None None None None None)
              (sample_world five_docs steady))) = Some next
    /\ Todo.description next <> None.
Proof.
  destruct (update_never_clears_a_field Pcre.engine "000000000000000000000002"
              (TodoUpdate.mk (Some "Eggs") None None None None None)
              (sample_doc 2 "Buy eggs" (Some "a dozen") false "medium" 2000 2000)
              (sample_world five_docs steady) eq_refl eq_refl)
    as (next & Found & _ & _ & Kept & _).
  exists next. split; [exact Found|]. apply Kept. discriminate.
Defined.

(** ** What List returns *)

Lemma descending_skipn k n l : descending k l -> descending k (skipn n l).
Proof.
  unfold descending. revert l. induction n as [|n IH]; intros l Srt; [exact Srt|].
  destruct l as [|x l]; [exact Srt|]. simpl. apply IH.
  inversion Srt; assumption.
Qed.

Lemma descending_firstn k n l : descending k l -> descending k (firstn n l).
Proof.
  unfold descending. revert n. induction l as [|x l IH]; intros n Srt.
  - rewrite firstn_nil. constructor.
  - destruct n as [|n]; simpl; [constructor|].
    inversion Srt as [|? ? S' Hd]; subst.
    constructor; [apply IH; exact S'|].
    destruct l as [|y l]; [rewrite firstn_nil; constructor|].
    destruct n as [|n]; simpl; [constructor|].
    constructor. inversion Hd; assumption.
Qed.

Lemma in_firstn {A} n (l : list A) x : In x (firstn n l) -> In x l.
Proof.
  intros H. rewrite <- (firstn_skipn n l). apply in_or_app. left. exact H.
Qed.

Lemma in_skipn {A} n (l : list A) x : In x (skipn n l) -> In x l.
Proof.
  intros H. rewrite <- (firstn_skipn n l). apply in_or_app. right. exact H.
Qed.

(** X7. For a filter that the store accepts, and an offset and a limit
    that are not negative and that the driver can write in eight bytes, List
    returns at most [limit] records, all of them stored records that pass
    the filter, ordered by [created_at] with the newest first. *)
Theorem list_window_is_sorted_and_bounded (engine : regex_engine) (skip limit : Z)
  (completed : option bool) (priority search : option string)
  (pr : Todo.t -> bool) (w : World) :
  Collection.filter_pred engine (TodoCRUD.build_filter completed priority search) = Some pr ->
  0 <= skip < int64_bound ->
  0 <= limit < int64_bound ->
  exists docs : list Todo.t,
    TodoCRUD.get_todos engine skip limit completed priority search w = (Ok docs, w)
    /\ Z.of_nat (List.length docs) <= limit
    /\ descending CreatedAt docs
    /\ forall d, In d docs -> In d (collection w) /\ pr d = true.
Proof.
  intros Accepted Hskip Hlimit.
  eexists. split; [apply get_todos_run; [exact Accepted | lia | lia]|]. split; [|split].
  - pose proof (firstn_le_length (Z.to_nat limit)
                  (skipn (Z.to_nat skip) (newest_first (List.filter pr (collection w))))).
    lia.
  - apply descending_firstn, descending_skipn. apply sort_docs_descending.
  - intros d Hd. apply in_firstn, in_skipn in Hd.
    unfold newest_first in Hd. rewrite sort_docs_in in Hd.
    apply filter_In in Hd. exact Hd.
Qed.

Lemma list_window_is_sorted_and_bounded_witness :
  exists docs : list Todo.t,
    TodoCRUD.get_todos Pcre.engine 1 3 None None None (sample_world five_docs steady)
    = (Ok docs, sample_world five_docs steady)
    /\ Z.of_nat (List.length docs) <= 3
    /\ descending CreatedAt docs.
Proof.
  destruct (list_window_is_sorted_and_bounded Pcre.engine 1 3 None None None
              (fun _ => true) (sample_world five_docs steady) eq_refl)
    as (docs & Run & Short & Sorted_ & _);
    [unfold int64_bound; lia | unfold int64_bound; lia |].
  exists docs. split; [exact Run|]. split; assumption.
Defined.

Lemma firstn_then_firstn {A} (a b : nat) (l : list A) :
  firstn a l ++ firstn b (skipn a l) = firstn (a + b) l.
Proof.
  revert l. induction a as [|a IH]; intro l; [reflexivity|].
  destruct l as [|x l]; simpl.
  - rewrite firstn_nil. reflexivity.
  - rewrite IH. reflexivity.
Qed.

(** Records with distinct creation times have one order by [created_at]
    descending, whichever way the store sorts them. *)
Lemma descending_order_is_unique (l1 l2 : list Todo.t) :
  distinct_created l1 ->
  Permutation l1 l2 ->
  descending CreatedAt l1 ->
  descending CreatedAt l2 ->
  l1 = l2.
Proof.
  unfold distinct_created, descending.
  revert l2. induction l1 as [|x l1 IH]; intros l2 Distinct Perm S1 S2.
  - apply Permutation_nil in Perm. symmetry. exact Perm.
  - destruct l2 as [|y l2];
      [apply Permutation_sym, Permutation_nil in Perm; discriminate Perm|].
    assert (T : Relations_1.Transitive
                  (fun a b : Todo.t => key_of CreatedAt b <= key_of CreatedAt a))
      by (intros a b c Hab Hbc; lia).
    apply (Sorted_StronglySorted T) in S1, S2.
    inversion S1 as [|? ? S1' Below1]; subst.
    inversion S2 as [|? ? S2' Below2]; subst.
    simpl in Distinct. inversion Distinct as [|? ? Fresh Distinct']; subst.
    assert (Same : x = y).
    { assert (Hy : In y (x :: l1))
        by (apply (Permutation_in y (Permutation_sym Perm)); left; reflexivity).
      destruct Hy as [E | Hy]; [exact E|].
      assert (Hx : In x (y :: l2))
        by (apply (Permutation_in x Perm); left; reflexivity).
      destruct Hx as [E | Hx]; [symmetry; exact E|].
      exfalso. apply Fresh.
      rewrite Forall_forall in Below1, Below2.
      pose proof (Below1 y Hy) as Le1. pose proof (Below2 x Hx) as Le2.
      simpl in Le1, Le2.
      replace (Todo.created_at x) with (Todo.created_at y) by lia.
      apply in_map. exact Hy. }
    subst y. f_equal.
    apply IH.
    + exact Distinct'.
    + apply (Permutation_cons_inv Perm).
    + apply StronglySorted_Sorted. exact S1'.
    + apply StronglySorted_Sorted. exact S2'.
Qed.

(** X8. Consecutive windows neither overlap nor leave a gap.  For a filter
    that the store accepts, selected records of which no two were created in
    the same millisecond, and offsets and limits that are not negative and
    that the driver can write in eight bytes: the window of [a] records at
    [skip], followed by the window of [b] records at [skip + a], is the
    window of [a + b] records at [skip]; and the windows are those of every
    order of the selected records by [created_at] descending. *)
Theorem list_windows_compose (engine : regex_engine) (skip a b : Z)
  (completed : option bool) (priority search : option string)
  (pr : Todo.t -> bool) (w : World) :
  Collection.filter_pred engine (TodoCRUD.build_filter completed priority search) = Some pr ->
  distinct_created (List.filter pr (collection w)) ->
  0 <= skip -> 0 <= a -> 0 <= b ->
  skip + a + b < int64_bound ->
  exists first second both : list Todo.t,
    TodoCRUD.get_todos engine skip a completed priority search w = (Ok first, w)
    /\ TodoCRUD.get_todos engine (skip + a) b completed priority search w = (Ok second, w)
    /\ TodoCRUD.get_todos engine skip (a + b) completed priority search w = (Ok both, w)
    /\ both = first ++ second
    /\ forall sorted : list Todo.t,
         Permutation sorted (List.filter pr (collection w)) ->
         descending CreatedAt sorted ->
         first = firstn (Z.to_nat a) (skipn (Z.to_nat skip) sorted)
         /\ second = firstn (Z.to_nat b) (skipn (Z.to_nat (skip + a)) sorted).
Proof.
  intros Accepted Distinct Hskip Ha Hb Fits.
  do 3 eexists. split; [apply get_todos_run; [eassumption | lia | lia]|].
  split; [apply get_todos_run; [eassumption | lia | lia]|].
  split; [apply get_todos_run; [eassumption | lia | lia]|].
  split.
  - rewrite !Z2Nat.inj_add by lia.
    rewrite (Nat.add_comm (Z.to_nat skip) (Z.to_nat a)), <- skipn_skipn.
    symmetry. apply firstn_then_firstn.
  - intros sorted Perm Srt.
    assert (Same : newest_first (List.filter pr (collection w)) = sorted).
    { apply Permutation_sym in Perm.
      apply descending_order_is_unique.
      - unfold distinct_created in *. unfold newest_first.
        apply (Permutation_NoDup
                 (l := map Todo.created_at (List.filter pr (collection w))));
          [|exact Distinct].
        apply Permutation_map, Permutation_sym, sort_docs_permutation.
      - unfold newest_first.
        rewrite sort_docs_permutation. exact Perm.
      - apply sort_docs_descending.
      - exact Srt. }
    rewrite Same. split; reflexivity.
Qed.

Lemma list_windows_compose_witness :
  exists first second both : list Todo.t,
    TodoCRUD.get_todos Pcre.engine 0 2 None None None (sample_world five_docs steady)
    = (Ok first, sample_world five_docs steady)
    /\ TodoCRUD.get_todos Pcre.engine (0 + 2) 2 None None None
         (sample_world five_docs steady)
       = (Ok second, sample_world five_docs steady)
    /\ TodoCRUD.get_todos Pcre.engine 0 (2 + 2) None None None
         (sample_world five_docs steady)
       = (Ok both, sample_world five_docs steady)
    /\ both = first ++ second.
Proof.
  destruct (list_windows_compose Pcre.engine 0 2 2 None None None (fun _ => true)
              (sample_world five_docs steady))
    as (first & second & both & Run1 & Run2 & Run3 & Joined & _).
  - reflexivity.
  - unfold distinct_created. simpl.
    repeat (constructor; [simpl; intuition discriminate|]). constructor.
  - lia.
  - lia.
  - lia.
  - unfold int64_bound. lia.
  - exists first, second, both. repeat split; assumption.
Defined.

Lemma window_not_empty {A} (n s : nat) (l : list A) :
  (1 <= n)%nat -> (firstn n (skipn s l) <> [] <-> (s < List.length l)%nat).
Proof.
  intros Hn. split.
  - intros NonEmpty.
    destruct (Nat.lt_ge_cases s (List.length l)) as [H|H]; [exact H|].
    exfalso. apply NonEmpty. rewrite skipn_all2 by exact H. apply firstn_nil.
  - intros Short Empty.
    apply (f_equal (@List.length A)) in Empty.
    rewrite length_firstn, length_skipn in Empty. simpl in Empty. lia.
Qed.

(** X9. On the REST list route, for a filter that the store accepts, a
    page from 1 on and a limit from 1 on whose product the driver can write
    in eight bytes, [has_next] tells the truth about the next page: it is
    true exactly when the page after holds at least one record; that next
    page has [has_prev] true and reports the same total. *)
Theorem has_next_announces_the_next_page (engine : regex_engine) (page limit : Z)
  (completed : option bool) (priority search : option string)
  (pr : Todo.t -> bool) (w : World) :
  Collection.filter_pred engine (TodoCRUD.build_filter completed priority search) = Some pr ->
  1 <= page -> 1 <= limit ->
  page * limit < int64_bound ->
  exists this next : TodoListResponse,
    Main.get_todos engine page limit completed priority search w
    = (Ok {| Main.status_code := 200; Main.content := Main.Page this |}, w)
    /\ Main.get_todos engine (page + 1) limit completed priority search w
       = (Ok {| Main.status_code := 200; Main.content := Main.Page next |}, w)
    /\ (has_next this = true <-> todos next <> [])
    /\ has_prev next = true
    /\ total next = total this.
Proof.
  intros Accepted Hpage Hlimit Fits.
  assert (Run : forall p, 1 <= p ->
    Main.get_todos engine p limit completed priority search w
    = (Ok {| Main.status_code := 200;
             Main.content :=
               Main.Page
                 {| todos := firstn (Z.to_nat limit)
                               (skipn (Z.to_nat ((p - 1) * limit))
                                  (newest_first (List.filter pr (collection w))));
                    total := Z.of_nat (List.length (List.filter pr (collection w)));
                    page := p; limit := limit;
                    has_next := (p - 1) * limit + limit
                                <? Z.of_nat (List.length (List.filter pr (collection w)));
                    has_prev := 1 <? p |} |}, w)).
  { intros p Hp. unfold Main.get_todos, try_except, bind.
    rewrite (get_todos_run engine ((p - 1) * limit) limit completed priority search
               pr w Accepted) by nia.
    rewrite (get_todos_count_run engine completed priority search pr w Accepted).
    reflexivity. }
  do 2 eexists. split; [apply Run; lia|]. split; [apply Run; lia|].
  cbn [has_next todos has_prev total]. split; [|split].
  - rewrite window_not_empty by lia.
    unfold newest_first. rewrite sort_docs_length, Z.ltb_lt.
    replace (page + 1 - 1) with page by lia. nia.
  - apply Z.ltb_lt. lia.
  - reflexivity.
Qed.

Lemma has_next_announces_the_next_page_witness :
  exists this next : TodoListResponse,
    Main.get_todos Pcre.engine 1 3 None None None (sample_world five_docs steady)
    = (Ok {| Main.status_code := 200; Main.content := Main.Page this |},
       sample_world five_docs steady)
    /\ Main.get_todos Pcre.engine (1 + 1) 3 None None None (sample_world five_docs steady)
       = (Ok {| Main.status_code := 200; Main.content := Main.Page next |},
          sample_world five_docs steady)
    /\ (has_next this = true <-> todos next <> []).
Proof.
  destruct (has_next_announces_the_next_page Pcre.engine 1 3 None None None
              (fun _ => true) (sample_world five_docs steady) eq_refl)
    as (this & next & Run1 & Run2 & Tells & _);
    [lia | lia | unfold int64_bound; lia |].
  exists this, next. split; [exact Run1|]. split; [exact Run2 | exact Tells].
Defined.

(** ** The convenience queries *)

Lemma filter_both_sides (p : Todo.t -> bool) l :
  Permutation (List.filter p l ++ List.filter (fun d => negb (p d)) l) l.
Proof.
  induction l as [|x l IH]; simpl; [reflexivity|].
  destruct (p x); simpl.
  - rewrite IH. reflexivity.
  - rewrite <- Permutation_middle, IH. reflexivity.
Qed.

Lemma get_completed_todos_run (engine : regex_engine) w :
  TodoCRUD.get_completed_todos engine w
  = (Ok (sort_docs (in_order UpdatedAt (-1)) (List.filter Todo.completed (collection w))), w).
Proof.
  unfold TodoCRUD.get_completed_todos, Collection.sort, Collection.to_list,
    Collection.fetch, Collection.query, Collection.find, bind, ret. simpl.
  do 3 f_equal. apply filter_ext.
  intro d. destruct (Todo.completed d); reflexivity.
Qed.

Lemma get_pending_todos_run (engine : regex_engine) w :
  TodoCRUD.get_pending_todos engine w
  = (Ok (sort_docs (in_order CreatedAt (-1))
           (List.filter (fun d => negb (Todo.completed d)) (collection w))), w).
Proof.
  unfold TodoCRUD.get_pending_todos, Collection.sort, Collection.to_list,
    Collection.fetch, Collection.query, Collection.find, bind, ret. simpl.
  do 3 f_equal. apply filter_ext.
  intro d. destruct (Todo.completed d); reflexivity.
Qed.

(** X10. The completed and the pending query split the collection: every
    stored record is in exactly one of the two answers, as often as it is
    stored; the completed ones come by [updated_at] and the pending ones by
    [created_at], the newest first; neither query changes the world. *)
Theorem completed_and_pending_split_the_collection (engine : regex_engine) (w : World) :
  exists finished pending : list Todo.t,
    TodoCRUD.get_completed_todos engine w = (Ok finished, w)
    /\ TodoCRUD.get_pending_todos engine w = (Ok pending, w)
    /\ Permutation (finished ++ pending) (collection w)
    /\ (forall d, In d finished -> Todo.completed d = true)
    /\ (forall d, In d pending -> Todo.completed d = false)
    /\ descending UpdatedAt finished
    /\ descending CreatedAt pending.
Proof.
  do 2 eexists.
  split; [apply get_completed_todos_run|].
  split; [apply get_pending_todos_run|].
  split; [|split; [|split; [|split]]].
  - rewrite !sort_docs_permutation. apply filter_both_sides.
  - intros d Hd. rewrite sort_docs_in in Hd. apply filter_In in Hd. tauto.
  - intros d Hd. rewrite sort_docs_in in Hd. apply filter_In in Hd.
    destruct Hd as [_ Hd]. apply negb_true_iff. exact Hd.
  - apply sort_docs_descending.
  - apply sort_docs_descending.
Qed.

Lemma existsb_eqb_in tag (l : list string) :
  existsb (String.eqb tag) l = true <-> In tag l.
Proof.
  rewrite existsb_exists. split.
  - intros (x & Hx & E). apply String.eqb_eq in E. subst x. exact Hx.
  - intros H. exists tag. split; [exact H | apply String.eqb_refl].
Qed.

(** X11. The tag query returns exactly the stored records that carry the
    tag among their tags, letter for letter, the newest first. *)
Theorem tag_query_selects_tagged_records (engine : regex_engine) (tag : string)
  (w : World) :
  exists docs : list Todo.t,
    TodoCRUD.get_todos_by_tag engine tag w = (Ok docs, w)
    /\ (forall d, In d docs <-> In d (collection w) /\ In tag (Todo.tags d))
    /\ descending CreatedAt docs.
Proof.
  eexists. split; [|split].
  - unfold TodoCRUD.get_todos_by_tag, Collection.sort, Collection.to_list,
      Collection.fetch, Collection.query, Collection.find, bind, ret. simpl.
    reflexivity.
  - intro d. rewrite sort_docs_in, filter_In, andb_true_r, existsb_eqb_in. reflexivity.
  - apply sort_docs_descending.
Qed.

(** ** Statistics *)

Lemma count_without_search (engine : regex_engine) completed priority w :
  TodoCRUD.get_todos_count engine completed priority None w
  = (Ok (Z.of_nat (List.length (List.filter (constrains completed priority)
                                  (collection w)))), w).
Proof.
  destruct (filter_without_search engine completed priority None (or_introl eq_refl))
    as (pr & F & Same).
  rewrite (get_todos_count_run engine completed priority None pr w F).
  rewrite (filter_ext pr (constrains completed priority) Same). reflexivity.
Qed.

Lemma get_stats_run (engine : regex_engine) w :
  let count c p :=
    Z.of_nat (List.length (List.filter (constrains c p) (collection w))) in
  Main.get_stats engine w
  = (Ok {| Main.status_code := 200;
           Main.content :=
             Main.Stats {| Main.total_todos := count None None;
                           Main.completed_todos := count (Some true) None;
                           Main.pending_todos := count (Some false) None;
                           Main.high := count None (Some "high");
                           Main.medium := count None (Some "medium");
                           Main.low := count None (Some "low") |} |}, w).
Proof.
  intros count. unfold Main.get_stats, try_except, bind.
  rewrite !count_without_search. reflexivity.
Qed.

Lemma count_both_sides (p : Todo.t -> bool) (l : list Todo.t) :
  (List.length (List.filter p l) + List.length (List.filter (fun d => negb (p d)) l)
   = List.length l)%nat.
Proof.
  rewrite <- length_app. apply Permutation_length. apply filter_both_sides.
Qed.

Lemma count_completed_and_pending (l : list Todo.t) :
  (List.length (List.filter (constrains (Some true) None) l)
   + List.length (List.filter (constrains (Some false) None) l)
   = List.length (List.filter (constrains None None) l))%nat
  /\ List.length (List.filter (constrains None None) l) = List.length l.
Proof.
  rewrite (filter_ext (constrains (Some true) None) Todo.completed)
    by (intro d; unfold constrains; destruct (Todo.completed d); reflexivity).
  rewrite (filter_ext (constrains (Some false) None) (fun d => negb (Todo.completed d)))
    by (intro d; unfold constrains; destruct (Todo.completed d); reflexivity).
  rewrite (filter_ext (constrains None None) (fun _ => true))
    by (intro d; reflexivity).
  rewrite filter_true. split; [apply count_both_sides | reflexivity].
Qed.

(** X12. The statistics route always answers 200, and its counts add up:
    the total is the size of the collection and equals the completed count
    plus the pending count. *)
Theorem stats_completed_plus_pending_is_total (engine : regex_engine) (w : World) :
  exists s : Main.stats,
    Main.get_stats engine w
    = (Ok {| Main.status_code := 200; Main.content := Main.Stats s |}, w)
    /\ Main.total_todos s = Z.of_nat (List.length (collection w))
    /\ Main.completed_todos s + Main.pending_todos s = Main.total_todos s.
Proof.
  eexists. split; [apply get_stats_run|].
  cbn [Main.total_todos Main.completed_todos Main.pending_todos].
  destruct (count_completed_and_pending (collection w)) as [Sum All].
  split; lia.
Qed.

Lemma count_three_priorities (l : list Todo.t) :
  (forall d, In d l -> priority_pattern (Todo.priority d) = true) ->
  (List.length (List.filter (fun d => String.eqb (Todo.priority d) "high") l)
   + List.length (List.filter (fun d => String.eqb (Todo.priority d) "medium") l)
   + List.length (List.filter (fun d => String.eqb (Todo.priority d) "low") l)
   = List.length l)%nat.
Proof.
  induction l as [|x l IH]; intros Enumerated; [reflexivity|].
  assert (Hx : priority_pattern (Todo.priority x) = true)
    by (apply Enumerated; left; reflexivity).
  assert (Rest : forall d, In d l -> priority_pattern (Todo.priority d) = true)
    by (intros d Hd; apply Enumerated; right; exact Hd).
  specialize (IH Rest). unfold priority_pattern in Hx. cbn [List.filter].
  destruct (String.eqb (Todo.priority x) "high") eqn:H;
    destruct (String.eqb (Todo.priority x) "medium") eqn:M;
    destruct (String.eqb (Todo.priority x) "low") eqn:L;
    cbn [List.length orb] in *; try discriminate Hx; try lia;
    exfalso;
    repeat match goal with
           | E : String.eqb _ _ = true |- _ => apply String.eqb_eq in E
           end; congruence.
Qed.

Lemma count_priorities (l : list Todo.t) :
  (forall d, In d l -> priority_pattern (Todo.priority d) = true) ->
  (List.length (List.filter (constrains None (Some "high")) l)
   + List.length (List.filter (constrains None (Some "medium")) l)
   + List.length (List.filter (constrains None (Some "low")) l)
   = List.length l)%nat.
Proof.
  intros Enumerated.
  rewrite (filter_ext (constrains None (Some "high"))
             (fun d => String.eqb (Todo.priority d) "high")) by (intro d; reflexivity).
  rewrite (filter_ext (constrains None (Some "medium"))
             (fun d => String.eqb (Todo.priority d) "medium")) by (intro d; reflexivity).
  rewrite (filter_ext (constrains None (Some "low"))
             (fun d => String.eqb (Todo.priority d) "low")) by (intro d; reflexivity).
  apply count_three_priorities. exact Enumerated.
Qed.

(** X13. When every stored priority is one of low, medium and high, the
    priority breakdown of the statistics adds up to the total. *)
Theorem stats_breakdown_adds_up (engine : regex_engine) (w : World) :
  priorities_enumerated w ->
  exists s : Main.stats,
    Main.get_stats engine w
    = (Ok {| Main.status_code := 200; Main.content := Main.Stats s |}, w)
    /\ Main.high s + Main.medium s + Main.low s = Main.total_todos s.
Proof.
  intros Enumerated.
  eexists. split; [apply get_stats_run|].
  cbn [Main.total_todos Main.high Main.medium Main.low].
  pose proof (count_priorities (collection w) Enumerated) as Sum.
  destruct (count_completed_and_pending (collection w)) as [_ All].
  lia.
Qed.

Lemma stats_breakdown_adds_up_witness :
  exists s : Main.stats,
    Main.get_stats Pcre.engine (sample_world five_docs steady)
    = (Ok {| Main.status_code := 200; Main.content := Main.Stats s |},
       sample_world five_docs steady)
    /\ Main.high s + Main.medium s + Main.low s = Main.total_todos s.
Proof.
  apply (stats_breakdown_adds_up Pcre.engine (sample_world five_docs steady)).
  intros d Hd. simpl in Hd.
  repeat destruct Hd as [<- | Hd]; try reflexivity. destruct Hd.
Defined.

(** ** Identifiers as text *)

Lemma small_digit (d : N) (P : N -> Prop) :
  (d < 16)%N ->
  P 0%N -> P 1%N -> P 2%N -> P 3%N -> P 4%N -> P 5%N -> P 6%N -> P 7%N ->
  P 8%N -> P 9%N -> P 10%N -> P 11%N -> P 12%N -> P 13%N -> P 14%N -> P 15%N ->
  P d.
Proof.
  intros Small. intros.
  destruct d as [|p]; [assumption|].
  do 4 (destruct p as [p|p|]; try assumption); exfalso; lia.
Qed.

Lemma hex_value_digit d : (d < 16)%N -> Text.hex_value (Text.hex_digit d) = d.
Proof.
  intros Small.
  apply (small_digit d (fun x => Text.hex_value (Text.hex_digit x) = x) Small);
    reflexivity.
Qed.

Lemma is_hex_digit d : (d < 16)%N -> Text.is_hex (Text.hex_digit d) = true.
Proof.
  intros Small.
  apply (small_digit d (fun x => Text.is_hex (Text.hex_digit x) = true) Small);
    reflexivity.
Qed.

Lemma hex_is_hex digits n acc :
  forallb Text.is_hex (Text.chars acc) = true ->
  forallb Text.is_hex (Text.chars (ObjectId.hex digits n acc)) = true.
Proof.
  revert n acc. induction digits as [|k IH]; intros n acc Hacc; simpl; [exact Hacc|].
  apply IH. simpl. rewrite Hacc, is_hex_digit; [reflexivity|].
  apply N.mod_lt. discriminate.
Qed.

Lemma hex_reads_back digits n acc a :
  fold_left (fun v c => (16 * v + Text.hex_value c)%N)
    (Text.chars (ObjectId.hex digits n acc)) a
  = fold_left (fun v c => (16 * v + Text.hex_value c)%N) (Text.chars acc)
      (a * 16 ^ N.of_nat digits + n mod 16 ^ N.of_nat digits)%N.
Proof.
  revert n acc a. induction digits as [|k IH]; intros n acc a.
  - simpl. rewrite N.mod_1_r. f_equal. lia.
  - cbn [ObjectId.hex]. rewrite IH. cbn [Text.chars list_ascii_of_string fold_left].
    f_equal. rewrite hex_value_digit by (apply N.mod_lt; discriminate).
    rewrite Nat2N.inj_succ, N.pow_succ_r'.
    rewrite (N.Div0.mod_mul_r n 16 (16 ^ N.of_nat k)). lia.
Qed.

Lemma str_is_valid oid : ObjectId.is_valid (ObjectId.str oid) = true.
Proof.
  unfold ObjectId.is_valid. rewrite str_length.
  change (Nat.eqb 24 24) with true. cbn [andb].
  unfold ObjectId.str. apply hex_is_hex. reflexivity.
Qed.

Lemma of_str_str oid : (oid < ObjectId.modulus)%N -> ObjectId.of_str (ObjectId.str oid) = oid.
Proof.
  intros Small. unfold ObjectId.of_str, ObjectId.str.
  rewrite hex_reads_back.
  change (Text.chars EmptyString) with (@nil ascii). cbn [fold_left].
  change (16 ^ N.of_nat 24)%N with ObjectId.modulus.
  rewrite N.mod_small by exact Small. apply N.add_0_l.
Qed.

(** X14. The identifier of a created record, written as text, is a
    well-formed identifier, and GetById with that text returns the very record
    that Create returned. *)
Theorem created_record_is_found_by_its_id (engine : regex_engine) (todo : TodoCreate.t)
  (w : World) :
  existsb (has_id (oid_source w (oid_draws w) mod ObjectId.modulus)%N) (collection w)
  = false ->
  exists (doc : Todo.t) (w' : World),
    TodoCRUD.create_todo engine todo w = (Ok doc, w')
    /\ ObjectId.is_valid (ObjectId.str (Todo._id doc)) = true
    /\ ObjectId.of_str (ObjectId.str (Todo._id doc)) = Todo._id doc
    /\ TodoCRUD.get_todo engine (ObjectId.str (Todo._id doc)) w' = (Ok (Some doc), w').
Proof.
  intros Fresh.
  pose proof (create_todo_run engine todo w) as Run. cbv zeta in Run.
  rewrite Fresh in Run.
  set (oid := (oid_source w (oid_draws w) mod ObjectId.modulus)%N) in *.
  assert (Back : ObjectId.of_str (ObjectId.str oid) = oid).
  { apply of_str_str. apply N.mod_lt. discriminate. }
  do 2 eexists. split; [exact Run|]. cbn [Todo._id stored].
  split; [apply str_is_valid|]. split; [exact Back|].
  rewrite get_todo_valid by (apply canonical_is_accepted, str_is_valid). rewrite Back.
  unfold lookup. cbn [with_collection collection].
  rewrite find_after; [reflexivity | exact Fresh |].
  unfold has_id. simpl. apply N.eqb_refl.
Qed.

Lemma created_record_is_found_by_its_id_witness :
  exists (doc : Todo.t) (w' : World),
    TodoCRUD.create_todo Pcre.engine milk (sample_world five_docs steady) = (Ok doc, w')
    /\ TodoCRUD.get_todo Pcre.engine (ObjectId.str (Todo._id doc)) w' = (Ok (Some doc), w').
Proof.
  destruct (created_record_is_found_by_its_id Pcre.engine milk
              (sample_world five_docs steady) eq_refl)
    as (doc & w' & Run & _ & _ & Found).
  exists doc, w'. split; [exact Run | exact Found].
Defined.

(** ** Routing *)

Lemma append_step (a : string) (c : ascii) (b : string) :
  ((a ++ String c EmptyString) ++ b)%string = (a ++ String c b)%string.
Proof.
  induction a as [|x a IH]; simpl; [reflexivity|].
  rewrite IH. reflexivity.
Qed.

Lemma segments_from_one_segment (s cur : string) :
  forallb (fun c => negb (Ascii.eqb c "/"%char)) (Text.chars s) = true ->
  Main.segments_from s cur = [(cur ++ s)%string].
Proof.
  revert cur. induction s as [|c s IH]; intros cur Free; simpl.
  - f_equal. induction cur as [|x cur IHc]; simpl; [reflexivity|].
    rewrite <- IHc at 1. reflexivity.
  - simpl in Free. apply andb_true_iff in Free. destruct Free as [Hc Hs].
    apply negb_true_iff in Hc. rewrite Hc, (IH _ Hs), append_step. reflexivity.
Qed.

Lemma segment_parts (s : string) :
  segment s = true ->
  String.eqb s EmptyString = false
  /\ forallb (fun c => negb (Ascii.eqb c "/"%char)) (Text.chars s) = true.
Proof.
  unfold segment. intros H. apply andb_true_iff in H. destruct H as [A B].
  apply negb_true_iff in A. split; assumption.
Qed.

Lemma get_todo_answers (engine : regex_engine) todo_id w :
  exists r, Main.get_todo engine todo_id w = (Ok r, w).
Proof.
  unfold Main.get_todo, bind.
  destruct (ObjectId.bson_is_valid todo_id) eqn:Good.
  - rewrite get_todo_valid by exact Good.
    destruct (lookup (ObjectId.of_str todo_id) w); eexists; reflexivity.
  - unfold TodoCRUD.get_todo. rewrite Good. simpl. eexists. reflexivity.
Qed.

Lemma get_todos_by_tag_answers (engine : regex_engine) tag w :
  exists r, Main.get_todos_by_tag engine tag w = (Ok r, w).
Proof.
  unfold Main.get_todos_by_tag, TodoCRUD.get_todos_by_tag, Collection.sort,
    Collection.to_list, Collection.fetch, Collection.query, Collection.find, bind, ret.
  simpl. eexists. reflexivity.
Qed.

(** X15. Whatever single segment follows [/todos/], a GET request is
    handled by [get_todo] with that segment as the identifier: no route that
    is registered later for such a path is ever reached.  The tag route, one
    segment deeper, is reached with the tag as written. *)
Theorem get_of_one_segment_is_get_todo (engine : regex_engine) (s : string) (w : World) :
  segment s = true ->
  Main.dispatch engine (Main.get ("/todos/" ++ s)) w = Main.get_todo engine s w
  /\ Main.dispatch engine (Main.get ("/todos/tag/" ++ s)) w
     = Main.get_todos_by_tag engine s w.
Proof.
  intros Seg. destruct (segment_parts s Seg) as [NonEmpty Free].
  assert (One : Main.segments ("/todos/" ++ s) = [EmptyString; "todos"; s]).
  { unfold Main.segments. simpl.
    rewrite (segments_from_one_segment s EmptyString Free). reflexivity. }
  assert (Two : Main.segments ("/todos/tag/" ++ s) = [EmptyString; "todos"; "tag"; s]).
  { unfold Main.segments. simpl.
    rewrite (segments_from_one_segment s EmptyString Free). reflexivity. }
  split.
  - assert (R : Main.resolve Main.app (Main.get ("/todos/" ++ s)) false
                = Main.Found Main.GetTodo [s]).
    { unfold Main.resolve, Main.app, Main.matches. cbn [Main.route_path Main.path Main.get].
      rewrite One. simpl. rewrite NonEmpty. reflexivity. }
    unfold Main.dispatch. rewrite R. cbn [Main.call].
    destruct (get_todo_answers engine s w) as [r Run].
    unfold try_except. rewrite Run. reflexivity.
  - assert (R : Main.resolve Main.app (Main.get ("/todos/tag/" ++ s)) false
                = Main.Found Main.GetTodosByTag [s]).
    { unfold Main.resolve, Main.app, Main.matches. cbn [Main.route_path Main.path Main.get].
      rewrite Two.
      destruct (String.eqb "toggle" s) eqn:Toggle; simpl in Toggle; simpl;
        rewrite NonEmpty, Toggle; reflexivity. }
    unfold Main.dispatch. rewrite R. cbn [Main.call].
    destruct (get_todos_by_tag_answers engine s w) as [r Run].
    unfold try_except. rewrite Run. reflexivity.
Qed.

Lemma get_of_one_segment_is_get_todo_witness :
  Main.dispatch Pcre.engine (Main.get ("/todos/" ++ "stats")) (sample_world five_docs steady)
  = Main.get_todo Pcre.engine "stats" (sample_world five_docs steady).
Proof.
  apply (get_of_one_segment_is_get_todo Pcre.engine "stats" (sample_world five_docs steady)).
  reflexivity.
Defined.

(** ** The front ends fold failures into answers *)

Lemma get_todos_negative (engine : regex_engine) skip limit completed priority search w :
  skip < 0 \/ limit < 0 ->
  TodoCRUD.get_todos engine skip limit completed priority search w
  = (Raise ValueError, w).
Proof.
  intros Negative.
  unfold TodoCRUD.get_todos, Collection.skip, Collection.limit, Collection.sort,
    Collection.to_list, bind, ret, raise.
  destruct (skip <? 0) eqn:S0; [reflexivity|].
  assert (L0 : (limit <? 0) = true) by lia.
  rewrite L0. reflexivity.
Qed.

(** X16. Neither list endpoint raises or changes the world, whatever the
    arguments.  A negative offset or limit is answered with the error of the
    refused cursor call; a search text that the store refuses, when offset
    and limit are not negative and the driver can write them in eight bytes,
    with the store's error: status 500 on the REST side, the error
    dictionary on the tool side. *)
Theorem list_endpoints_never_raise (engine : regex_engine) (page limit : Z)
  (completed : option bool) (priority search : option string) (w : World) :
  exists (response : Main.Response) (reply : McpServer.reply),
    Main.get_todos engine page limit completed priority search w = (Ok response, w)
    /\ McpServer.get_todos engine page limit completed priority search w = (Ok reply, w)
    /\ ((page - 1) * limit < 0 \/ limit < 0 ->
        response = Main.HTTPException 500 (Main.StrOf ValueError)
        /\ reply = McpServer.Error "Failed to get todos: " ValueError)
    /\ (0 <= (page - 1) * limit < int64_bound -> 0 <= limit < int64_bound ->
        Collection.filter_pred engine (TodoCRUD.build_filter completed priority search)
        = None ->
        response = Main.HTTPException 500 (Main.StrOf OperationFailure)
        /\ reply = McpServer.Error "Failed to get todos: " OperationFailure).
Proof.
  unfold Main.get_todos, McpServer.get_todos, try_except, bind.
  destruct (Z_lt_ge_dec ((page - 1) * limit) 0) as [Neg|Pos];
    [|destruct (Z_lt_ge_dec limit 0) as [NegL|PosL]].
  - rewrite (get_todos_negative engine ((page - 1) * limit) limit completed priority
               search w (or_introl Neg)).
    do 2 eexists. split; [reflexivity|]. split; [reflexivity|].
    split; [intros _; split; reflexivity | intros; lia].
  - rewrite (get_todos_negative engine ((page - 1) * limit) limit completed priority
               search w (or_intror NegL)).
    do 2 eexists. split; [reflexivity|]. split; [reflexivity|].
    split; [intros _; split; reflexivity | intros; lia].
  - destruct (Collection.filter_pred engine
                (TodoCRUD.build_filter completed priority search)) as [pr|] eqn:F.
    + rewrite (get_todos_run engine ((page - 1) * limit) limit completed priority
                 search pr w F) by lia.
      rewrite (get_todos_count_run engine completed priority search pr w F).
      do 2 eexists. split; [reflexivity|]. split; [reflexivity|].
      split; [intros [H|H]; lia | intros _ _ H; discriminate H].
    + rewrite (get_todos_rejected engine ((page - 1) * limit) limit completed priority
                 search w F) by lia.
      do 2 eexists. split; [reflexivity|]. split; [reflexivity|].
      split; [intros [H|H]; lia | intros _ _ _; split; reflexivity].
Qed.

Lemma delete_todo_run (engine : regex_engine) todo_id w :
  ObjectId.bson_is_valid todo_id = true ->
  TodoCRUD.delete_todo engine todo_id w
  = match lookup (ObjectId.of_str todo_id) w with
    | Some _ =>
        (Ok true,
         with_collection w
           (remove_first (has_id (ObjectId.of_str todo_id)) (collection w)))
    | None => (Ok false, w)
    end.
Proof.
  intros Good. unfold TodoCRUD.delete_todo. rewrite Good. cbn [negb]. unfold bind.
  rewrite delete_one_by_id.
  destruct (lookup (ObjectId.of_str todo_id) w); reflexivity.
Qed.

(** X17. The life of a record on the REST routes: while it is stored, GET
    answers 200 with it; DELETE answers 204 with an empty body; afterwards,
    identifiers being unique, GET, PUT, PATCH toggle and a second DELETE on
    the same identifier all answer 404 "Todo not found". *)
Theorem rest_answers_after_delete (engine : regex_engine) (todo_id : string)
  (u : TodoUpdate.t) (doc : Todo.t) (w : World) :
  ObjectId.is_valid todo_id = true ->
  lookup (ObjectId.of_str todo_id) w = Some doc ->
  unique_ids w ->
  let gone := Main.HTTPException 404 (Main.Message "Todo not found") in
  exists w' : World,
    Main.get_todo engine todo_id w
    = (Ok {| Main.status_code := 200; Main.content := Main.OneTodo doc |}, w)
    /\ Main.delete_todo engine todo_id w
       = (Ok {| Main.status_code := 204; Main.content := Main.Empty |}, w')
    /\ Main.get_todo engine todo_id w' = (Ok gone, w')
    /\ fst (Main.update_todo engine todo_id (Some u) w') = Ok gone
    /\ Main.toggle_todo engine todo_id w' = (Ok gone, w')
    /\ Main.delete_todo engine todo_id w' = (Ok gone, w').
Proof.
  intros Good Stored Unique gone.
  apply canonical_is_accepted in Good.
  set (w' := with_collection w
               (remove_first (has_id (ObjectId.of_str todo_id)) (collection w))).
  assert (Gone : lookup (ObjectId.of_str todo_id) w' = None)
    by (apply find_remove_first_same; exact Unique).
  exists w'. split; [|split; [|split; [|split; [|split]]]].
  - unfold Main.get_todo, bind. rewrite get_todo_valid, Stored by exact Good.
    reflexivity.
  - unfold Main.delete_todo, bind. rewrite delete_todo_run, Stored by exact Good.
    reflexivity.
  - unfold Main.get_todo, bind. rewrite get_todo_valid, Gone by exact Good.
    reflexivity.
  - unfold Main.update_todo, bind.
    destruct (TodoCRUD.present_fields u) as [|a rest] eqn:Fields.
    + assert (Run : TodoCRUD.update_todo engine todo_id u w' = (Ok None, w')).
      { unfold TodoCRUD.update_todo. rewrite Good, Fields. cbn [negb].
        rewrite get_todo_valid, Gone by exact Good. reflexivity. }
      rewrite Run. reflexivity.
    + rewrite (update_todo_missing engine todo_id u w' a rest Good Gone Fields).
      reflexivity.
  - unfold Main.toggle_todo, bind.
    assert (Run : TodoCRUD.toggle_todo engine todo_id w' = (Ok None, w')).
    { unfold TodoCRUD.toggle_todo. rewrite Good. cbn [negb]. unfold bind.
      rewrite get_todo_valid, Gone by exact Good. reflexivity. }
    rewrite Run. reflexivity.
  - unfold Main.delete_todo, bind. rewrite delete_todo_run, Gone by exact Good.
    reflexivity.
Qed.

Lemma rest_answers_after_delete_witness :
  exists w' : World,
    Main.delete_todo Pcre.engine "000000000000000000000004"
      (sample_world five_docs steady)
    = (Ok {| Main.status_code := 204; Main.content := Main.Empty |}, w')
    /\ Main.get_todo Pcre.engine "000000000000000000000004" w'
       = (Ok (Main.HTTPException 404 (Main.Message "Todo not found")), w').
Proof.
  destruct (rest_answers_after_delete Pcre.engine "000000000000000000000004" no_fields
              (sample_doc 4 "Call home" (Some "ask about MILK") true "medium" 4000 8000)
              (sample_world five_docs steady) eq_refl eq_refl five_docs_unique)
    as (w' & _ & Deleted & Gone & _).
  exists w'. split; [exact Deleted | exact Gone].
Defined.

(** X18. Create on the REST route never raises: it answers 201 with the
    stored record, or, when the store refuses the generated identifier as
    already taken, 400 with the store's error, and then no record is added. *)
Theorem rest_create_answers (engine : regex_engine) (todo : TodoCreate.t) (w : World) :
  exists (response : Main.Response) (w' : World),
    Main.create_todo engine todo w = (Ok response, w')
    /\ ((exists doc, response = {| Main.status_code := 201;
                                   Main.content := Main.OneTodo doc |}
                     /\ collection w' = collection w ++ [doc]
                     /\ lookup (Todo._id doc) w' = Some doc
                     /\ lookup (Todo._id doc) w = None)
        \/ (response = Main.HTTPException 400 (Main.StrOf DuplicateKeyError)
            /\ collection w' = collection w)).
Proof.
  unfold Main.create_todo, try_except, bind. rewrite create_todo_run.
  destruct (existsb (has_id _) (collection w)) eqn:Taken.
  - do 2 eexists. split; [reflexivity|]. right. split; reflexivity.
  - do 2 eexists. split; [reflexivity|]. left. eexists. split; [reflexivity|].
    split; [reflexivity|]. split.
    + unfold lookup. cbn [with_collection collection]. apply find_after; [exact Taken|].
      unfold has_id. simpl. apply N.eqb_refl.
    + unfold lookup. apply find_absent_id. apply has_id_in. exact Taken.
Qed.

(** ** The tools *)

Lemma absent_id_results (engine : regex_engine) todo_id w :
  ObjectId.bson_is_valid todo_id = false \/ lookup (ObjectId.of_str todo_id) w = None ->
  TodoCRUD.get_todo engine todo_id w = (Ok None, w)
  /\ TodoCRUD.toggle_todo engine todo_id w = (Ok None, w)
  /\ TodoCRUD.delete_todo engine todo_id w = (Ok false, w)
  /\ forall u, fst (TodoCRUD.update_todo engine todo_id u w) = Ok None.
Proof.
  intros Absent.
  destruct (ObjectId.bson_is_valid todo_id) eqn:Good.
  - destruct Absent as [Bad | Missing]; [discriminate Bad|].
    assert (Get : TodoCRUD.get_todo engine todo_id w = (Ok None, w))
      by (rewrite get_todo_valid, Missing by exact Good; reflexivity).
    split; [exact Get|]. split; [|split].
    + unfold TodoCRUD.toggle_todo. rewrite Good. cbn [negb]. unfold bind.
      rewrite Get. reflexivity.
    + rewrite delete_todo_run, Missing by exact Good. reflexivity.
    + intro u. destruct (TodoCRUD.present_fields u) as [|a rest] eqn:Fields.
      * unfold TodoCRUD.update_todo. rewrite Good, Fields. cbn [negb].
        rewrite Get. reflexivity.
      * rewrite (update_todo_missing engine todo_id u w a rest Good Missing Fields).
        reflexivity.
  - unfold TodoCRUD.get_todo, TodoCRUD.toggle_todo, TodoCRUD.delete_todo,
      TodoCRUD.update_todo.
    rewrite Good. repeat split; reflexivity.
Qed.

(** X19. For an identifier that the library refuses, and for a canonical
    one that matches no stored record, the tools that get, toggle and delete
    answer the same error text, "Todo with ID '...' not found" around the
    identifier as given, and leave the world alone; the tool that updates
    answers that text too, whenever its date argument is absent, empty or
    read by the parser and its arguments pass the validation of
    [TodoUpdate]. *)
Theorem tools_answer_not_found (engine : regex_engine)
  (fromisoformat : string -> option datetime) (todo_id : string)
  (title description : option string) (completed : option bool)
  (priority due_date : option string) (parsed : option datetime)
  (tags : option (list string)) (w : World) :
  ObjectId.bson_is_valid todo_id = false
  \/ (ObjectId.is_valid todo_id = true /\ lookup (ObjectId.of_str todo_id) w = None) ->
  McpServer.parse_due_date fromisoformat due_date = Some parsed ->
  TodoUpdate.valid (TodoUpdate.mk title description completed priority parsed tags)
  = true ->
  let refusal := McpServer.Refused ("Todo with ID '" ++ todo_id ++ "' not found") in
  McpServer.get_todo engine todo_id w = (Ok refusal, w)
  /\ McpServer.toggle_todo engine todo_id w = (Ok refusal, w)
  /\ McpServer.delete_todo engine todo_id w = (Ok refusal, w)
  /\ fst (McpServer.update_todo engine fromisoformat todo_id title description completed
            priority due_date tags w) = Ok refusal.
Proof.
  intros Absent Parsed Valid refusal.
  assert (Absent' : ObjectId.bson_is_valid todo_id = false
                    \/ lookup (ObjectId.of_str todo_id) w = None)
    by (destruct Absent as [Bad | [_ Missing]]; [left | right]; assumption).
  destruct (absent_id_results engine todo_id w Absent')
    as (Get & Toggle & Delete & Update).
  split; [|split; [|split]].
  - unfold McpServer.get_todo, try_except, bind. rewrite Get. reflexivity.
  - unfold McpServer.toggle_todo, try_except, bind. rewrite Toggle. reflexivity.
  - unfold McpServer.delete_todo, try_except, bind. rewrite Delete. reflexivity.
  - unfold McpServer.update_todo, try_except, bind.
    rewrite Parsed, Valid.
    specialize (Update (TodoUpdate.mk title description completed priority parsed tags)).
    destruct (TodoCRUD.update_todo engine todo_id
                (TodoUpdate.mk title description completed priority parsed tags) w)
      as [r w'].
    simpl in Update. subst r. reflexivity.
Qed.

Lemma tools_answer_not_found_witness :
  McpServer.get_todo Pcre.engine "xyz" (sample_world five_docs steady)
  = (Ok (McpServer.Refused "Todo with ID 'xyz' not found"), sample_world five_docs steady).
Proof.
  apply (tools_answer_not_found Pcre.engine no_date "xyz" (Some "New title") None None
           None None None None (sample_world five_docs steady)).
  - left. reflexivity.
  - reflexivity.
  - reflexivity.
Defined.

(** X20. A date text that is not empty and that the parser refuses stops
    the tools that create and update before anything else happens: the answer
    is the error "Invalid date format: ... Use YYYY-MM-DD format." around the
    text as given, whatever the other arguments, and the world is untouched. *)
Theorem malformed_date_stops_the_tool (engine : regex_engine)
  (fromisoformat : string -> option datetime) (text todo_id title : string)
  (new_title description : option string) (completed : option bool)
  (priority : string) (new_priority : option string) (tags : option (list string))
  (w : World) :
  text <> EmptyString ->
  fromisoformat (McpServer.replace_Z text) = None ->
  let refusal :=
    McpServer.Refused ("Invalid date format: " ++ text ++ ". Use YYYY-MM-DD format.") in
  McpServer.create_todo engine fromisoformat title description priority (Some text) tags w
  = (Ok refusal, w)
  /\ McpServer.update_todo engine fromisoformat todo_id new_title description completed
       new_priority (Some text) tags w
     = (Ok refusal, w).
Proof.
  intros NonEmpty Malformed refusal.
  assert (T : TodoCRUD.truthy text = true).
  { unfold TodoCRUD.truthy. destruct (String.eqb text EmptyString) eqn:E; [|reflexivity].
    apply String.eqb_eq in E. contradiction. }
  unfold McpServer.create_todo, McpServer.update_todo, McpServer.parse_due_date,
    try_except.
  rewrite T, Malformed. split; reflexivity.
Qed.

Lemma malformed_date_stops_the_tool_witness :
  McpServer.create_todo Pcre.engine no_date "Buy milk" None "high" (Some "tomorrow") None
    (sample_world five_docs steady)
  = (Ok (McpServer.Refused "Invalid date format: tomorrow. Use YYYY-MM-DD format."),
     sample_world five_docs steady).
Proof.
  apply (malformed_date_stops_the_tool Pcre.engine no_date "tomorrow"
           "000000000000000000000001" "Buy milk" None None None "high" None None
           (sample_world five_docs steady)).
  - discriminate.
  - reflexivity.
Defined.

(** X21. The tool that creates stores nothing when the title is empty or
    the priority is none of low, medium and high, whatever the date argument:
    a date text that the parser refuses is answered with the date error, and
    otherwise the validation of [TodoCreate] refuses the arguments and the
    answer is the creation error; the world is untouched either way. *)
Theorem create_tool_validates_first (engine : regex_engine)
  (fromisoformat : string -> option datetime) (title : string)
  (description : option string) (priority : string) (due_date : option string)
  (tags : option (list string)) (w : World) :
  title = EmptyString \/ priority_pattern priority = false ->
  McpServer.create_todo engine fromisoformat title description priority due_date tags w
  = (Ok (match McpServer.parse_due_date fromisoformat due_date with
         | Some _ => McpServer.Failed "Failed to create todo: " McpServer.ValidationError
         | None => McpServer.Refused (McpServer.invalid_date due_date)
         end), w).
Proof.
  intros Bad.
  unfold McpServer.create_todo, try_except.
  destruct (McpServer.parse_due_date fromisoformat due_date) as [parsed|];
    [|reflexivity].
  assert (V : TodoCreate.valid
                (TodoCreate.mk title description false priority parsed
                   (Main.default [] tags)) = false).
  { unfold TodoCreate.valid. cbn [TodoCreate.title TodoCreate.description
                                   TodoCreate.priority].
    destruct Bad as [-> | P].
    - reflexivity.
    - rewrite P. apply andb_false_r. }
  rewrite V. reflexivity.
Qed.

Lemma create_tool_validates_first_witness :
  McpServer.create_todo Pcre.engine no_date "Buy milk" None "urgent" None None
    (sample_world five_docs steady)
  = (Ok (McpServer.Failed "Failed to create todo: " McpServer.ValidationError),
     sample_world five_docs steady).
Proof.
  apply (create_tool_validates_first Pcre.engine no_date "Buy milk" None "urgent" None
           None (sample_world five_docs steady)).
  right. reflexivity.
Defined.

(** X22. A todo created through the tool is stored as pending, with the
    title, description, priority and tags as given (no tags when none are
    given) and without a due date when none is given; the identifier that the
    tool echoes, handed to the tool that gets, shows the same record. *)
Theorem tool_create_then_get (engine : regex_engine)
  (fromisoformat : string -> option datetime) (title : string)
  (description : option string) (priority : string) (tags : option (list string))
  (w : World) :
  TodoCreate.valid
    (TodoCreate.mk title description false priority None (Main.default [] tags)) = true ->
  existsb (has_id (oid_source w (oid_draws w) mod ObjectId.modulus)%N) (collection w)
  = false ->
  exists (doc : Todo.t) (w' : World),
    McpServer.create_todo engine fromisoformat title description priority None tags w
    = (Ok (McpServer.Done ("Todo '" ++ title ++ "' created successfully")
             (McpServer.echo_created doc)), w')
    /\ McpServer.get_todo engine (McpServer.id (McpServer.echo_created doc)) w'
       = (Ok (McpServer.Shown (McpServer.echo doc)), w')
    /\ Todo.title doc = title
    /\ Todo.description doc = description
    /\ Todo.priority doc = priority
    /\ Todo.tags doc = Main.default [] tags
    /\ Todo.completed doc = false
    /\ Todo.due_date doc = None.
Proof.
  intros Valid Fresh.
  pose proof (create_todo_run engine
                (TodoCreate.mk title description false priority None
                   (Main.default [] tags)) w) as Run.
  cbv zeta in Run. rewrite Fresh in Run.
  set (oid := (oid_source w (oid_draws w) mod ObjectId.modulus)%N) in *.
  assert (Back : ObjectId.of_str (ObjectId.str oid) = oid).
  { apply of_str_str. apply N.mod_lt. discriminate. }
  do 2 eexists. split.
  { unfold McpServer.create_todo, McpServer.parse_due_date, try_except, bind.
    rewrite Valid, Run. reflexivity. }
  split.
  { cbn [McpServer.id McpServer.echo_created Todo._id stored].
    unfold McpServer.get_todo, try_except, bind.
    rewrite get_todo_valid by (apply canonical_is_accepted, str_is_valid). rewrite Back.
    unfold lookup. cbn [with_collection collection].
    rewrite find_after; [reflexivity | exact Fresh |].
    unfold has_id. simpl. apply N.eqb_refl. }
  repeat split; reflexivity.
Qed.

Lemma tool_create_then_get_witness :
  exists (doc : Todo.t) (w' : World),
    McpServer.create_todo Pcre.engine no_date "Buy milk" None "high" None None
      (sample_world five_docs steady)
    = (Ok (McpServer.Done "Todo 'Buy milk' created successfully"
             (McpServer.echo_created doc)), w')
    /\ McpServer.get_todo Pcre.engine (McpServer.id (McpServer.echo_created doc)) w'
       = (Ok (McpServer.Shown (McpServer.echo doc)), w').
Proof.
  destruct (tool_create_then_get Pcre.engine no_date "Buy milk" None "high" None
              (sample_world five_docs steady) eq_refl eq_refl)
    as (doc & w' & Created & Shown_ & _).
  exists doc, w'. split; [exact Created | exact Shown_].
Defined.

(** X23. The tool that toggles names the new state in its message: a
    pending record is answered with "marked as completed", a completed one
    with "marked as pending", and the record echoed is the toggled one. *)
Theorem toggle_tool_names_the_new_state (engine : regex_engine) (todo_id : string)
  (doc : Todo.t) (w : World) :
  ObjectId.is_valid todo_id = true ->
  lookup (ObjectId.of_str todo_id) w = Some doc ->
  exists w' : World,
    McpServer.toggle_todo engine todo_id w
    = (Ok (McpServer.Done
             ("Todo '" ++ Todo.title doc ++ "' marked as "
              ++ (if Todo.completed doc then "pending" else "completed"))
             (McpServer.echo (toggled doc (clock w (clock_reads w))))), w')
    /\ lookup (ObjectId.of_str todo_id) w'
       = Some (toggled doc (clock w (clock_reads w))).
Proof.
  intros Good Stored.
  apply canonical_is_accepted in Good.
  destruct (toggle_step engine todo_id doc w Good Stored) as [Run After].
  eexists. split; [|exact After].
  unfold McpServer.toggle_todo, try_except, bind. rewrite Run.
  cbn [toggled Todo.title Todo.completed].
  destruct (Todo.completed doc); reflexivity.
Qed.

Lemma toggle_tool_names_the_new_state_witness :
  exists w' : World,
    McpServer.toggle_todo Pcre.engine "000000000000000000000005"
      (sample_world five_docs steady)
    = (Ok (McpServer.Done "Todo 'Read' marked as completed"
             (McpServer.echo
                (toggled (sample_doc 5 "Read" None false "low" 5000 5000) 7000000))), w').
Proof.
  destruct (toggle_tool_names_the_new_state Pcre.engine "000000000000000000000005"
              (sample_doc 5 "Read" None false "low" 5000 5000)
              (sample_world five_docs steady) eq_refl eq_refl)
    as (w' & Run & _).
  exists w'. exact Run.
Defined.

(** X24. The statistics tool and the statistics route report the same
    counts, and neither changes the world. *)
Theorem stats_tool_agrees_with_route (engine : regex_engine) (w : World) :
  exists s : Main.stats,
    McpServer.get_todo_stats engine w = (Ok (McpServer.Counted s), w)
    /\ Main.get_stats engine w
       = (Ok {| Main.status_code := 200; Main.content := Main.Stats s |}, w).
Proof.
  eexists. split; [|apply get_stats_run].
  unfold McpServer.get_todo_stats, try_except, bind.
  rewrite !count_without_search. reflexivity.
Qed.

(** ** What the REST routes check before any data access *)

(** X26. A PUT on [/todos/] and one segment without a body is answered
    400 "Update data is required", whatever the segment and the world: the
    body is looked at before the identifier, so even a malformed or unknown
    identifier gets 400 and not 404, and nothing is read or written. *)
Theorem put_without_body_is_400 (engine : regex_engine) (s : string) (w : World) :
  segment s = true ->
  Main.dispatch engine
    {| Main.http_method := Main.PUT; Main.path := "/todos/" ++ s;
       Main.query_page := None; Main.query_limit := None;
       Main.query_completed := None; Main.query_priority := None;
       Main.query_search := None;
       Main.json_create := None; Main.json_update := None |} w
  = (Ok (Main.HTTPException 400 (Main.Message "Update data is required")), w).
Proof.
  intros Seg. destruct (segment_parts s Seg) as [NonEmpty Free].
  assert (One : Main.segments ("/todos/" ++ s) = [EmptyString; "todos"; s]).
  { unfold Main.segments. simpl.
    rewrite (segments_from_one_segment s EmptyString Free). reflexivity. }
  unfold Main.dispatch.
  match goal with
  | |- context [Main.resolve Main.app ?req false] =>
      assert (R : Main.resolve Main.app req false = Main.Found Main.UpdateTodo [s])
  end.
  { unfold Main.resolve, Main.app, Main.matches. cbn [Main.route_path Main.path].
    rewrite One. simpl. rewrite NonEmpty. reflexivity. }
  rewrite R. reflexivity.
Qed.

Lemma put_without_body_is_400_witness :
  Main.dispatch Pcre.engine
    {| Main.http_method := Main.PUT; Main.path := "/todos/" ++ "nobody";
       Main.query_page := None; Main.query_limit := None;
       Main.query_completed := None; Main.query_priority := None;
       Main.query_search := None;
       Main.json_create := None; Main.json_update := None |}
    (sample_world five_docs steady)
  = (Ok (Main.HTTPException 400 (Main.Message "Update data is required")),
     sample_world five_docs steady).
Proof.
  apply (put_without_body_is_400 Pcre.engine "nobody" (sample_world five_docs steady)).
  reflexivity.
Defined.
